(** * Batch claim-dispatch-reconcile job: a shallow embedding of [src/main.py]

    The job reads pending rows from a BigQuery table, marks them as being
    processed, calls an HTTP endpoint once per row through a thread pool,
    classifies every answer, and writes the outcomes back row by row.

    The embedding keeps the program's shape:
    - the module-level configuration is read from an environment map;
    - the store and the endpoint are the two external parties; what they
      answer is fixed by an [external] record (fault schedule of the store,
      behaviour of each submitted call), so every run is a function that can
      be evaluated;
    - effects (store queries, log lines, pool submissions, exceptions) are
      threaded through a small state-and-exception monad over a [world];
    - the Python dict [processed_results] is an insertion-ordered
      association list, because the write-back loop iterates it in order. *)

From stdpp Require Import base strings list gmap pretty.

#[local] Set Warnings "-clear-no-such-hyp,-register-all,-notation-for-abbreviation".

Open Scope string_scope.
Open Scope list_scope.

(** ** Python strings *)

Module Py.

(** [str.startswith] *)
Fixpoint startswith (s p : string) {struct p} : bool :=
  match p with
  | EmptyString => true
  | String c p' =>
      match s with
      | EmptyString => false
      | String d s' => if decide (c = d) then startswith s' p' else false
      end
  end.

(** [needle in hay] on strings *)
Fixpoint contains (hay needle : string) : bool :=
  if startswith hay needle then true
  else match hay with
       | EmptyString => false
       | String _ hay' => contains hay' needle
       end.

(** [str(x)] for a value that may be [None] *)
Definition str (x : option string) : string :=
  match x with
  | Some s => s
  | None => "None"
  end.

(** [str(n)] for a non-negative integer *)
Definition str_int (n : nat) : string := pretty n.

(** truth value of an optional string: [None] and [""] are false *)
Definition truthy (x : option string) : bool :=
  match x with
  | Some (String _ _) => true
  | _ => false
  end.

(** [os.environ.get(name)] and [os.environ.get(name, default)] *)
Definition environ_get (environ : gmap string string) (name : string)
  : option string := environ !! name.

Definition environ_get_default (environ : gmap string string)
    (name default : string) : string :=
  match environ !! name with
  | Some v => v
  | None => default
  end.

End Py.

(** ** Python dicts, in insertion order

    [d[k] = v] replaces the value in place when [k] is present and appends
    the pair otherwise; [d.items()] and [len(d)] read the list. *)

Module Dict.

Section dict.
Context {V : Type}.

Definition t := list (string * V).

Definition empty : t := [].

Fixpoint set (d : t) (k : string) (v : V) : t :=
  match d with
  | [] => [(k, v)]
  | (k', v') :: d' =>
      if decide (k' = k) then (k, v) :: d' else (k', v') :: set d' k v
  end.

Fixpoint get (d : t) (k : string) : option V :=
  match d with
  | [] => None
  | (k', v') :: d' => if decide (k' = k) then Some v' else get d' k
  end.

Definition keys (d : t) : list string := d.*1.

Definition items (d : t) : list (string * V) := d.

Definition len (d : t) : nat := length d.

End dict.

Arguments t : clear implicits.

End Dict.

(** ** Configuration (module level of [main.py]) *)

Record config := Config {
  BIGQUERY_PROJECT : option string;
  BIGQUERY_DATASET : option string;
  BIGQUERY_TABLE_SOURCE : option string;
  BIGQUERY_TABLE_TARGET : option string;
  URL_PROCESSOR_SERVICE_URL : string;
}.

Definition DEFAULT_URL_PROCESSOR_SERVICE_URL : string :=
  "https://python-video-context-YOUR_PROJECT_NUMBER.us-central1.run.app".

Definition load_config (environ : gmap string string) : config :=
  {| BIGQUERY_PROJECT := Py.environ_get environ "BIGQUERY_PROJECT";
     BIGQUERY_DATASET := Py.environ_get environ "BIGQUERY_DATASET";
     BIGQUERY_TABLE_SOURCE := Py.environ_get environ "BIGQUERY_TABLE_SOURCE";
     BIGQUERY_TABLE_TARGET := Py.environ_get environ "BIGQUERY_TABLE_TARGET";
     URL_PROCESSOR_SERVICE_URL :=
       Py.environ_get_default environ "URL_PROCESSOR_SERVICE_URL"
         DEFAULT_URL_PROCESSOR_SERVICE_URL |}.

(** The table reference [`{BIGQUERY_PROJECT}.{BIGQUERY_DATASET}.{table}`]
    of the three SQL statements. *)
Definition table_ref (cfg : config) (table : option string) : string :=
  Py.str (BIGQUERY_PROJECT cfg) +:+ "." +:+ Py.str (BIGQUERY_DATASET cfg)
    +:+ "." +:+ Py.str table.

Definition BATCH_SIZE : nat := 5.
Definition MAX_CONCURRENT_TASKS_PER_INSTANCE : nat := 5.
Definition URL_PROCESSOR_TIMEOUT_SECONDS : nat := 600.

(** ** The store: tables of rows, and the three SQL statements *)

Record row := Row {
  row_id : string;
  row_url : string;
  row_status : string;
  row_context : string;
}.

Inductive query :=
  | SelectPending (table : string) (limit : nat)
      (* SELECT url, id FROM table WHERE status = 'PENDING' LIMIT limit *)
  | UpdateProcessing (table : string) (row_ids : list string)
      (* UPDATE table SET status = 'PROCESSING' WHERE id IN UNNEST(row_ids) *)
  | UpdateRow (table : string) (context status row_id : string).
      (* UPDATE table SET context = .., status = .. WHERE id = row_id *)

Module Sql.

Definition is_pending (r : row) : bool :=
  bool_decide (row_status r = "PENDING").

Definition select_pending (rows : list row) (limit : nat)
  : list (string * string) :=
  (λ r, (row_url r, row_id r)) <$> take limit (filter is_pending rows).

Definition mark_processing (row_ids : list string) (r : row) : row :=
  if bool_decide (row_id r ∈ row_ids)
  then {| row_id := row_id r; row_url := row_url r;
          row_status := "PROCESSING"; row_context := row_context r |}
  else r.

Definition set_result (context status id : string) (r : row) : row :=
  if bool_decide (row_id r = id)
  then {| row_id := row_id r; row_url := row_url r;
          row_status := status; row_context := context |}
  else r.

(** The rows a statement returns and the tables after it; [None] when the
    table it names does not exist. *)
Definition exec (q : query) (db : gmap string (list row))
  : option (list (string * string) * gmap string (list row)) :=
  match q with
  | SelectPending table limit =>
      rows ← db !! table; Some (select_pending rows limit, db)
  | UpdateProcessing table row_ids =>
      rows ← db !! table;
      Some ([], <[table := mark_processing row_ids <$> rows]> db)
  | UpdateRow table context status id =>
      rows ← db !! table;
      Some ([], <[table := set_result context status id <$> rows]> db)
  end.

End Sql.

(** ** Exceptions, events and the world *)

Inductive exn :=
  | NotFound (msg : string)
  | ValueError (msg : string)
  | TimeoutError
  | Exception (msg : string).

(** [str(e)] as the f-strings print it *)
Definition exn_str (e : exn) : string :=
  match e with
  | NotFound msg | ValueError msg | Exception msg => msg
  | TimeoutError => ""
  end.

Inductive level := INFO | WARNING | ERROR.

Inductive event :=
  | Log (lvl : level) (msg : string)
  | Print (msg : string)
  | ClientInit (project : option string)
  | Query (q : query) (fault : option exn)
  | Submit (url : string).

(** What one HTTP call to the endpoint does. A response carries, besides
    its status and body, [response.url]: the address the answer finally came
    from, as the requests library reports it (the prepared address, after
    any redirect), which need not be the configured one. *)
Inductive http_outcome :=
  | Response (status_code : nat) (reason response_url text : string)
  | RequestTimeout
  | RequestFault (detail : string)
  | OtherFault (detail : string).

(** What waiting on a future does: the call's value arrives in time, the
    wait runs out first, or the wait raises. *)
Inductive wait_outcome :=
  | InTime
  | TimedOut
  | Faulted (e : exn).

Record behaviour := Behaviour {
  http : http_outcome;
  wait : wait_outcome;
}.

(** The two external parties. [store_fault n] is the fault, if any, of the
    [n]-th query this process issues; [worker n url] is what happens to the
    [n]-th call submitted to the pool. *)
Record external := External {
  client_fault : option exn;
  store_fault : nat → option exn;
  worker : nat → string → behaviour;
}.

(** [trace] holds the events of the main thread, oldest first; [pool_logs]
    holds the log lines of each submitted call, in submission order (their
    interleaving with the main thread is not fixed by the program). *)
Record world := World {
  db : gmap string (list row);
  issued : nat;
  trace : list event;
  pool_logs : list (list event);
}.

Definition init_world (tables : gmap string (list row)) : world :=
  {| db := tables; issued := 0; trace := []; pool_logs := [] |}.

(** ** The state-and-exception monad *)

Inductive result (A : Type) :=
  | Ret (a : A)
  | Raise (e : exn).
Arguments Ret {A} a.
Arguments Raise {A} e.

Definition M (A : Type) : Type := world → result A * world.

Definition ret {A} (a : A) : M A := λ w, (Ret a, w).

Definition raise {A} (e : exn) : M A := λ w, (Raise e, w).

Definition bind {A B} (m : M A) (k : A → M B) : M B :=
  λ w, match m w with
       | (Ret a, w') => k a w'
       | (Raise e, w') => (Raise e, w')
       end.

(** [try: m  except ... as e: handler e]; a handler re-raises what its
    clauses do not match. *)
Definition try_except {A} (m : M A) (handler : exn → M A) : M A :=
  λ w, match m w with
       | (Ret a, w') => (Ret a, w')
       | (Raise e, w') => handler e w'
       end.

Declare Scope job_scope.
Delimit Scope job_scope with job.
Notation "'let*' x := m 'in' k" := (bind m (λ x, k))
  (at level 10, x name, m at level 100, k at level 200) : job_scope.
Notation "m ;; k" := (bind m (λ _, k))
  (at level 100, right associativity) : job_scope.
Open Scope job_scope.

Definition emit (e : event) : M unit :=
  λ w, (Ret tt, {| db := db w; issued := issued w;
                   trace := trace w ++ [e]; pool_logs := pool_logs w |}).

Definition log (lvl : level) (msg : string) : M unit := emit (Log lvl msg).

(** [for x in xs: acc = body x acc] *)
Fixpoint for_in {A S} (xs : list A) (body : A → S → M S) (acc : S) : M S :=
  match xs with
  | [] => ret acc
  | x :: xs' => let* acc' := body x acc in for_in xs' body acc'
  end.

(** ** The program *)

Section job.

Variable ext : external.

(** [bq_client.query(q).result()]: the statement is sent to the store; a
    fault of the store, or a table that does not exist, raises. A statement
    that faults leaves the tables as they were. *)
Definition bq_query (q : query) : M (list (string * string)) :=
  λ w,
    let answer :=
      match store_fault ext (issued w) with
      | Some e => inr e
      | None =>
          match Sql.exec q (db w) with
          | Some (rows, db') => inl (rows, db')
          | None => inr (NotFound "Not found: Table")
          end
      end in
    match answer with
    | inl (rows, db') =>
        (Ret rows, {| db := db'; issued := S (issued w);
                      trace := trace w ++ [Query q None];
                      pool_logs := pool_logs w |})
    | inr e =>
        (Raise e, {| db := db w; issued := S (issued w);
                     trace := trace w ++ [Query q (Some e)];
                     pool_logs := pool_logs w |})
    end.

(** [response.raise_for_status()] of the requests library: the text of the
    [HTTPError] it raises, which names [response.url]. *)
Definition raise_for_status (response_url : string) (status_code : nat)
    (reason : string) : option string :=
  if bool_decide (400 ≤ status_code < 500) then
    Some (Py.str_int status_code +:+ " Client Error: " +:+ reason
            +:+ " for url: " +:+ response_url)
  else if bool_decide (500 ≤ status_code < 600) then
    Some (Py.str_int status_code +:+ " Server Error: " +:+ reason
            +:+ " for url: " +:+ response_url)
  else None.

(** [call_url_processor_service(url)]: the text it returns and the lines it
    logs, given what the HTTP call does. It never raises. *)
Definition call_url_processor_service (cfg : config) (url : string)
    (h : http_outcome) : string * list event :=
  let calling := Log INFO ("Calling URL processor for: " +:+ url) in
  let request_failed e :=
    ("ERROR: Request failed for '" +:+ url +:+ "'. Details: " +:+ e,
     [calling;
      Log ERROR ("Request error calling URL processor for " +:+ url
                   +:+ ": " +:+ e)]) in
  match h with
  | Response status_code reason response_url text =>
      match raise_for_status response_url status_code reason with
      | None => (text, [calling])
      | Some e => request_failed e
      end
  | RequestTimeout =>
      ("ERROR: Timeout processing '" +:+ url +:+ "' at "
         +:+ URL_PROCESSOR_SERVICE_URL cfg,
       [calling;
        Log ERROR ("Timeout calling URL processor for " +:+ url +:+ ".")])
  | RequestFault e => request_failed e
  | OtherFault e =>
      ("ERROR: Unexpected error for '" +:+ url +:+ "'. Details: " +:+ e,
       [calling;
        Log ERROR ("An unexpected error occurred calling URL processor for "
                     +:+ url +:+ ": " +:+ e)])
  end.

(** [update_bq_row(row_id, context, status)] *)
Definition update_bq_row (cfg : config) (row_id context status : string)
  : M bool :=
  if negb (Py.truthy (BIGQUERY_TABLE_TARGET cfg)) then
    log ERROR "BIGQUERY_TABLE_TARGET not configured. Cannot update BigQuery.";;
    ret false
  else
    try_except
      (bq_query (UpdateRow (table_ref cfg (BIGQUERY_TABLE_TARGET cfg))
                   context status row_id);;
       log INFO ("Successfully updated BigQuery row ID " +:+ row_id
                   +:+ " with status " +:+ status +:+ ".");;
       ret true)
      (λ e,
         log ERROR ("Failed to update BigQuery row ID " +:+ row_id
                      +:+ ": " +:+ exn_str e);;
         ret false).

(** One entry of [processed_results] *)
Record outcome := Outcome {
  context : string;
  status : string;
}.

(** A future of the pool: the text its call returns, and what waiting on it
    does. *)
Record future := Future {
  fut_value : string;
  fut_wait : wait_outcome;
}.

(** [executor.submit(call_url_processor_service, url)] *)
Definition submit (cfg : config) (url : string) : M future :=
  λ w,
    let b := worker ext (length (pool_logs w)) url in
    let '(text, lines) := call_url_processor_service cfg url (http b) in
    (Ret {| fut_value := text; fut_wait := wait b |},
     {| db := db w; issued := issued w;
        trace := trace w ++ [Submit url];
        pool_logs := pool_logs w ++ [lines] |}).

(** [future.result(timeout=...)] *)
Definition future_result (f : future) (timeout : nat) : M string :=
  match fut_wait f with
  | InTime => ret (fut_value f)
  | TimedOut => raise TimeoutError
  | Faulted e => raise e
  end.

(** Step 3, first loop: submit one call per fetched item. *)
Definition submit_all (cfg : config) (pending_urls_data : list (string * string))
  : M (list (string * future)) :=
  for_in pending_urls_data
    (λ '(url, row_id) (futures : list (string * future)),
       let* fut := submit cfg url in
       ret (futures ++ [(row_id, fut)]))
    [].

(** Step 3, body of the second loop: wait for one future and classify. *)
Definition collect_one (item : string * future)
    (processed_results : Dict.t outcome) : M (Dict.t outcome) :=
  let '(row_id, fut) := item in
  try_except
    (let* content := future_result fut URL_PROCESSOR_TIMEOUT_SECONDS in
     if Py.startswith content "ERROR:" then
       ret (Dict.set processed_results row_id
              {| context := content; status := "FAILED_PROCESSING" |})
     else
       ret (Dict.set processed_results row_id
              {| context := content; status := "COMPLETED" |}))
    (λ e,
       match e with
       | TimeoutError =>
           log WARNING ("URL processing timed out (service call for row ID "
                          +:+ row_id +:+ "). Marking as FAILED.");;
           ret (Dict.set processed_results row_id
                  {| context := "ERROR: Processing timed out for '"
                                  +:+ row_id +:+ "'.";
                     status := "FAILED_PROCESSING" |})
       | _ =>
           log ERROR ("Exception during future result retrieval for row ID "
                        +:+ row_id +:+ ": " +:+ exn_str e);;
           ret (Dict.set processed_results row_id
                  {| context :=
                       "ERROR: Unexpected error during result retrieval for '"
                         +:+ row_id +:+ "'. Details: " +:+ exn_str e;
                     status := "FAILED_PROCESSING" |})
       end).

(** Step 3: the pool. *)
Definition dispatch (cfg : config) (pending_urls_data : list (string * string))
  : M (Dict.t outcome) :=
  let* futures := submit_all cfg pending_urls_data in
  for_in futures collect_one Dict.empty.

(** Step 4, the loop over [processed_results.items()]. *)
Definition write_back (cfg : config) (processed_results : Dict.t outcome)
  : M nat :=
  for_in (Dict.items processed_results)
    (λ '(row_id, data) successful_updates,
       let* ok := update_bq_row cfg row_id (context data) (status data) in
       if ok then ret (S successful_updates) else ret successful_updates)
    0.

(** [process_batch_from_bq()] *)
Definition process_batch_from_bq (cfg : config) : M (string * nat) :=
  if negb (Py.truthy (BIGQUERY_TABLE_SOURCE cfg)) then
    log ERROR "BIGQUERY_TABLE_SOURCE not configured. Exiting.";;
    ret ("Configuration error: BIGQUERY_TABLE_SOURCE is not set.", 500)
  else if negb (Py.truthy (Some (URL_PROCESSOR_SERVICE_URL cfg))) then
    log ERROR "URL_PROCESSOR_SERVICE_URL is not set. Exiting.";;
    ret ("Configuration error: URL_PROCESSOR_SERVICE_URL is not set.", 500)
  else
    emit (Print (Py.str_int BATCH_SIZE));;
    try_except
      (log INFO ("Fetching up to " +:+ Py.str_int BATCH_SIZE
                   +:+ " pending URLs from BigQuery...");;
       let* pending_urls_data :=
         bq_query (SelectPending (table_ref cfg (BIGQUERY_TABLE_SOURCE cfg))
                     BATCH_SIZE) in
       match pending_urls_data with
       | [] =>
           log INFO "No pending URLs found. Job finished.";;
           ret ("No pending URLs found. Job finished.", 200)
       | _ =>
           log INFO ("Fetched " +:+ Py.str_int (length pending_urls_data)
                       +:+ " URLs for processing.");;
           let row_ids_to_process := pending_urls_data.*2 in
           bq_query (UpdateProcessing
                       (table_ref cfg (BIGQUERY_TABLE_SOURCE cfg))
                       row_ids_to_process);;
           log INFO ("Marked " +:+ Py.str_int (length row_ids_to_process)
                       +:+ " URLs as 'PROCESSING'.");;
           let* processed_results := dispatch cfg pending_urls_data in
           log INFO ("Writing " +:+ Py.str_int (Dict.len processed_results)
                       +:+ " results back to BigQuery...");;
           let* successful_updates := write_back cfg processed_results in
           log INFO ("Finished processing. " +:+ Py.str_int successful_updates
                       +:+ " out of "
                       +:+ Py.str_int (Dict.len processed_results)
                       +:+ " rows updated successfully.");;
           ret ("Batch processing complete. Processed "
                  +:+ Py.str_int (Dict.len processed_results)
                  +:+ " URLs, updated " +:+ Py.str_int successful_updates
                  +:+ ".", 200)
       end)
      (λ e,
         match e with
         | NotFound _ =>
             log INFO "Source table not found.";;
             ret ("Source table not found.", 404)
         | _ =>
             log ERROR ("An unhandled error occurred in the job: "
                          +:+ exn_str e);;
             raise e
         end).

(** The module as a whole: configuration, client, the check of the
    endpoint address, and the call at the bottom of the file. *)
Definition main (environ : gmap string string) : M (string * nat) :=
  let cfg := load_config environ in
  try_except
    (emit (ClientInit (BIGQUERY_PROJECT cfg));;
     match client_fault ext with
     | Some e => raise e
     | None => log INFO "BigQuery client initialized successfully."
     end)
    (λ e,
       log ERROR ("Failed to initialize BigQuery client: " +:+ exn_str e);;
       raise e);;
  if negb (Py.truthy (Some (URL_PROCESSOR_SERVICE_URL cfg))) then
    log ERROR "URL_PROCESSOR_SERVICE_URL is not set. Cannot proceed.";;
    raise (ValueError "URL_PROCESSOR_SERVICE_URL must be set.")
  else
    process_batch_from_bq cfg.

End job.

(** ** Reading a trace *)

Definition query_of (e : event) : option query :=
  match e with Query q _ => Some q | _ => None end.

Definition done_query_of (e : event) : option query :=
  match e with Query q None => Some q | _ => None end.

Definition submit_of (e : event) : option string :=
  match e with Submit url => Some url | _ => None end.

Definition log_of (e : event) : option (level * string) :=
  match e with Log lvl msg => Some (lvl, msg) | _ => None end.

(** the statements sent to the store, in order *)
Definition queries (tr : list event) : list query := omap query_of tr.

(** the statements the store carried out *)
Definition done_queries (tr : list event) : list query := omap done_query_of tr.

(** the urls handed to the pool, in order *)
Definition submits (tr : list event) : list string := omap submit_of tr.

(** the log lines of the main thread *)
Definition log_lines (tr : list event) : list (level * string) := omap log_of tr.

Definition is_claim (q : query) : bool :=
  match q with UpdateProcessing _ _ => true | _ => false end.

Definition is_write (q : query) : bool :=
  match q with UpdateRow _ _ _ _ => true | _ => false end.

Definition write_of (cfg : config) (item : string * outcome) : query :=
  UpdateRow (table_ref cfg (BIGQUERY_TABLE_TARGET cfg))
    (context item.2) (status item.2) item.1.

(** the status column of the result writes sent to the store *)
Definition written_statuses (tr : list event) : list string :=
  omap (λ q, match q with
             | UpdateRow _ _ status _ => Some status
             | _ => None
             end) (queries tr).

Definition NOT_CONFIGURED : level * string :=
  (ERROR, "BIGQUERY_TABLE_TARGET not configured. Cannot update BigQuery.").

(** ** Futures and outcomes of step 3, as functions *)

Section outcomes_model.

Variable ext : external.
Variable cfg : config.

(** The future the pool returns for the [n]-th submitted call. *)
Definition future_of (n : nat) (url : string) : future :=
  {| fut_value :=
       (call_url_processor_service cfg url (http (worker ext n url))).1;
     fut_wait := wait (worker ext n url) |}.

Fixpoint futures_from (n : nat) (items : list (string * string))
  : list (string * future) :=
  match items with
  | [] => []
  | (url, row_id) :: items' =>
      (row_id, future_of n url) :: futures_from (S n) items'
  end.

(** What the second loop of step 3 stores for one future. *)
Definition classify (row_id : string) (fut : future) : outcome :=
  match fut_wait fut with
  | InTime =>
      {| context := fut_value fut;
         status := if Py.startswith (fut_value fut) "ERROR:"
                   then "FAILED_PROCESSING" else "COMPLETED" |}
  | TimedOut | Faulted TimeoutError =>
      {| context := "ERROR: Processing timed out for '" +:+ row_id +:+ "'.";
         status := "FAILED_PROCESSING" |}
  | Faulted e =>
      {| context := "ERROR: Unexpected error during result retrieval for '"
                      +:+ row_id +:+ "'. Details: " +:+ exn_str e;
         status := "FAILED_PROCESSING" |}
  end.

Definition record_all (futures : list (string * future))
    (d : Dict.t outcome) : Dict.t outcome :=
  foldl (λ d item, Dict.set d item.1 (classify item.1 item.2)) d futures.

End outcomes_model.

(** ** The runs of [process_batch_from_bq] and of the module *)

(** The store does not carry out the [n]-th statement [q] on [tables]: it
    faults, or the table the statement names does not exist. *)
Definition refused (ext : external) (n : nat) (q : query)
    (tables : gmap string (list row)) (e : exn) : Prop :=
  store_fault ext n = Some e
  ∨ (store_fault ext n = None ∧ Sql.exec q tables = None
     ∧ e = NotFound "Not found: Table").

Definition fetch_query (cfg : config) : query :=
  SelectPending (table_ref cfg (BIGQUERY_TABLE_SOURCE cfg)) BATCH_SIZE.

Definition claim_query (cfg : config) (fetched : list (string * string)) : query :=
  UpdateProcessing (table_ref cfg (BIGQUERY_TABLE_SOURCE cfg)) fetched.*2.

(** The value returned after step 4. *)
Definition batch_report (processed updated : nat) : string * nat :=
  ("Batch processing complete. Processed " +:+ Py.str_int processed
     +:+ " URLs, updated " +:+ Py.str_int updated +:+ ".", 200).

(** The last log line of step 4. *)
Definition finished_line (processed updated : nat) : event :=
  Log INFO ("Finished processing. " +:+ Py.str_int updated +:+ " out of "
              +:+ Py.str_int processed +:+ " rows updated successfully.").

(** What the outer [except] clauses make of an exception. *)
Definition outer_except (e : exn) : result (string * nat) :=
  match e with
  | NotFound _ => Ret ("Source table not found.", 404)
  | _ => Raise e
  end.

Section run_shapes.

Variable ext : external.

(** The five ways a call of [process_batch_from_bq] can go, with the events
    it adds to the trace. *)
Inductive batch_run (cfg : config) (w : world)
  : result (string * nat) → world → list event → Prop :=
  | Run_config_error msg w' evs :
      Py.truthy (BIGQUERY_TABLE_SOURCE cfg) = false
      ∨ URL_PROCESSOR_SERVICE_URL cfg = "" →
      queries evs = [] → submits evs = [] → db w' = db w →
      batch_run cfg w (Ret (msg, 500)) w' evs
  | Run_fetch_raised e w' evs :
      Py.truthy (BIGQUERY_TABLE_SOURCE cfg) = true →
      refused ext (issued w) (fetch_query cfg) (db w) e →
      queries evs = [fetch_query cfg] → done_queries evs = [] →
      submits evs = [] → db w' = db w →
      batch_run cfg w (outer_except e) w' evs
  | Run_nothing_pending w' evs :
      Py.truthy (BIGQUERY_TABLE_SOURCE cfg) = true →
      store_fault ext (issued w) = None →
      Sql.exec (fetch_query cfg) (db w) = Some ([], db w) →
      queries evs = [fetch_query cfg] → submits evs = [] → db w' = db w →
      batch_run cfg w (Ret ("No pending URLs found. Job finished.", 200)) w' evs
  | Run_claim_raised fetched e w' evs :
      Py.truthy (BIGQUERY_TABLE_SOURCE cfg) = true →
      fetched ≠ [] →
      store_fault ext (issued w) = None →
      Sql.exec (fetch_query cfg) (db w) = Some (fetched, db w) →
      refused ext (S (issued w)) (claim_query cfg fetched) (db w) e →
      queries evs = [fetch_query cfg; claim_query cfg fetched] →
      done_queries evs = [fetch_query cfg] →
      submits evs = [] → db w' = db w →
      batch_run cfg w (outer_except e) w' evs
  | Run_complete fetched claimed d n w' pre post :
      Py.truthy (BIGQUERY_TABLE_SOURCE cfg) = true →
      fetched ≠ [] →
      store_fault ext (issued w) = None →
      Sql.exec (fetch_query cfg) (db w) = Some (fetched, db w) →
      store_fault ext (S (issued w)) = None →
      Sql.exec (claim_query cfg fetched) (db w) = Some ([], claimed) →
      d = record_all
            (futures_from ext cfg (length (pool_logs w)) fetched) Dict.empty →
      queries pre = [fetch_query cfg] → done_queries pre = [fetch_query cfg] →
      submits pre = [] →
      submits post = fetched.*1 →
      queries post
      = (if Py.truthy (BIGQUERY_TABLE_TARGET cfg)
         then write_of cfg <$> d else []) →
      n = length (done_queries post) →
      last post = Some (finished_line (Dict.len d) n) →
      (Py.truthy (BIGQUERY_TABLE_TARGET cfg) = false → db w' = claimed) →
      batch_run cfg w (Ret (batch_report (Dict.len d) n)) w'
        (pre ++ Query (claim_query cfg fetched) None :: post).

(** Loading the module stops at the client, stops at the check of the
    endpoint address, or calls [process_batch_from_bq]. *)
Inductive main_run (environ : gmap string string) (w : world)
  : result (string * nat) → world → list event → Prop :=
  | Main_client_fault e w' evs :
      client_fault ext = Some e →
      queries evs = [] → submits evs = [] → db w' = db w →
      main_run environ w (Raise e) w' evs
  | Main_no_endpoint w' evs :
      client_fault ext = None →
      URL_PROCESSOR_SERVICE_URL (load_config environ) = "" →
      queries evs = [] → submits evs = [] → db w' = db w →
      main_run environ w
        (Raise (ValueError "URL_PROCESSOR_SERVICE_URL must be set.")) w' evs
  | Main_job r w1 w' pre evs :
      client_fault ext = None →
      URL_PROCESSOR_SERVICE_URL (load_config environ) ≠ "" →
      db w1 = db w → issued w1 = issued w → pool_logs w1 = pool_logs w →
      queries pre = [] → submits pre = [] →
      batch_run (load_config environ) w1 r w' evs →
      main_run environ w r w' (pre ++ evs).

End run_shapes.

(** ** Faults of the endpoint *)


(** A store that never faults and an endpoint whose every call does [h]
    while every wait does [wt]. *)
Definition always (h : http_outcome) (wt : wait_outcome) : external :=
  {| client_fault := None;
     store_fault := λ _, None;
     worker := λ _ _, {| http := h; wait := wt |} |}.


(** ** Runs that differ at most in the log lines of the pool *)



(** ** Sample data for the concrete runs below *)

Module Sample.

Definition environ : gmap string string :=
  list_to_map [("BIGQUERY_PROJECT", "proj"); ("BIGQUERY_DATASET", "videos");
               ("BIGQUERY_TABLE_SOURCE", "urls");
               ("BIGQUERY_TABLE_TARGET", "urls");
               ("URL_PROCESSOR_SERVICE_URL", "https://processor.example")].

Definition cfg : config := load_config environ.

(** the same, without the endpoint address *)
Definition environ_without_url : gmap string string :=
  delete "URL_PROCESSOR_SERVICE_URL" environ.

(** the same, without the target table *)
Definition environ_without_target : gmap string string :=
  delete "BIGQUERY_TABLE_TARGET" environ.

(** [response.url] of the sample endpoint *)
Definition response_url : string := "https://processor.example/".

Definition pending (id url : string) : row :=
  {| row_id := id; row_url := url; row_status := "PENDING";
     row_context := "" |}.

Definition tables (rows : list row) : gmap string (list row) :=
  {[ "proj.videos.urls" := rows ]}.

(** a store that never faults and an endpoint that answers [text] *)
Definition answering (text : string) : external :=
  {| client_fault := None;
     store_fault := λ _, None;
     worker := λ _ _, {| http := Response 200 "OK" response_url text;
                         wait := InTime |} |}.

(** the store refuses every statement from the [n]-th on *)
Definition store_down_from (n : nat) (text : string) : external :=
  {| client_fault := None;
     store_fault := λ i, if Nat.leb n i
                         then Some (Exception "503 Service Unavailable")
                         else None;
     worker := λ _ _, {| http := Response 200 "OK" response_url text;
                         wait := InTime |} |}.

End Sample.

(** ** The processing endpoint ([Cloud_Run_Function/generate_video_insights/main.py])

    The HTTP function the job calls. What the request carries is a parsed
    JSON value and the query arguments; the model call and the two Python
    built-ins the function relies on ([str] of a value that is not a string,
    [str.format]) are parameters of the section. *)

Module Endpoint.

(** A parsed JSON body, as [request.get_json(silent=True)] returns it
    ([JNull] also stands for a body that is absent or does not parse). For a
    number only what the function can observe is kept: whether it is zero. *)
Inductive json :=
  | JNull
  | JBool (b : bool)
  | JNumber (is_zero : bool)
  | JString (s : string)
  | JArray (items : list json)
  | JObject (fields : Dict.t json).

Record request := Request {
  request_json : json;
  request_args : gmap string string;
}.

(** truth value of a parsed body *)
Definition truthy (v : json) : bool :=
  match v with
  | JNull => false
  | JBool b => b
  | JNumber is_zero => negb is_zero
  | JString s => negb (bool_decide (s = ""))
  | JArray items => negb (bool_decide (items = []))
  | JObject fields => negb (bool_decide (fields = []))
  end.

Definition is_name (v : json) : bool :=
  match v with
  | JString s => bool_decide (s = "name")
  | _ => false
  end.

(** ['name' in v]: key of a dict, element of a list, substring of a string;
    a [TypeError] on a boolean or a number (the message depends on the Python
    version and nothing reads it). *)
Definition has_name (v : json) : result bool :=
  match v with
  | JObject fields => Ret (bool_decide ("name" ∈ Dict.keys fields))
  | JArray items => Ret (existsb is_name items)
  | JString s => Ret (Py.contains s "name")
  | JNull | JBool _ | JNumber _ => Raise (Exception "TypeError")
  end.

(** [v['name']], for a [v] that has the name: the value of a dict; a
    [TypeError] on a list or a string. *)
Definition get_name (v : json) : result json :=
  match v with
  | JObject fields =>
      match Dict.get fields "name" with
      | Some value => Ret value
      | None => Raise (Exception "KeyError")
      end
  | _ => Raise (Exception "TypeError")
  end.

Definition dq : string := String (Ascii.ascii_of_nat 34) "".
Definition nl : string := String (Ascii.ascii_of_nat 10) "".

Definition PROMPT_TEMPLATE : string :=
  String.concat nl
    [ "";
      "In the video at the following URL: {youtube_url}, which is a hands-on lab session:";
      "Ignore the credits set-up part particularly the coupon code and credits link aspect should not be included in your analysis or the extaction of context. Also exclude any credentials that are explicit in the video.";
      "Take only the first 30-40 minutes of the video without throwing any error.";
      "Analyze the rest of the content of the video.";
      "Extract and synthesize information to create a book chapter section with the following structure, formatted as a JSON string:";
      "1. **chapter_title:** A concise and engaging title for the chapter.";
      "2. **introduction_context:** Briefly explain the relevance of this video segment within a broader learning context.";
      "3. **what_will_build:** Clearly state the specific task or goal accomplished in this video segment.";
      "4. **technologies_and_services:** List all mentioned Google Cloud services and any other relevant technologies (e.g., programming languages, tools, frameworks).";
      "5. **how_we_did_it:** Provide a clear, numbered step-by-step guide of the actions performed. Include any exact commands or code snippets as they appear in the video. Format code/commands using markdown backticks (e.g., `my-command`).";
      ("6. **source_code_url:** Provide a URL to the source code repository if mentioned or implied. If not available, use " +:+ dq +:+ "N/A" +:+ dq +:+ ".");
      ("7. **demo_url:** Provide a URL to a demo if mentioned or implied. If not available, use " +:+ dq +:+ "N/A" +:+ dq +:+ ".");
      "8. **qa_segment:** Generate 10–15 relevant questions based on the content of this segment, along with concise answers. Ensure the questions are thought-provoking and test understanding of the material.";
      "REMEMBER: Ignore the credits set-up part particularly the coupon code and credits link aspect should not be included in your analysis or the extaction of context. Also exclude any credentials that are explicit in the video.";
      "Example structure:";
      "```json";
      "{{";
      ("  " +:+ dq +:+ "chapter_title" +:+ dq +:+ ": " +:+ dq +:+ "..." +:+ dq +:+ ",");
      ("  " +:+ dq +:+ "introduction_context" +:+ dq +:+ ": " +:+ dq +:+ "..." +:+ dq +:+ ",");
      ("  " +:+ dq +:+ "what_will_build" +:+ dq +:+ ": " +:+ dq +:+ "..." +:+ dq +:+ ",");
      ("  " +:+ dq +:+ "technologies_and_services" +:+ dq +:+ ": [" +:+ dq +:+ "..." +:+ dq +:+ ", " +:+ dq +:+ "..." +:+ dq +:+ "],");
      ("  " +:+ dq +:+ "how_we_did_it" +:+ dq +:+ ": [" +:+ dq +:+ "1. ..." +:+ dq +:+ ", " +:+ dq +:+ "2. ..." +:+ dq +:+ "],");
      ("  " +:+ dq +:+ "source_code_url" +:+ dq +:+ ": " +:+ dq +:+ "..." +:+ dq +:+ ",");
      ("  " +:+ dq +:+ "demo_url" +:+ dq +:+ ": " +:+ dq +:+ "..." +:+ dq +:+ ",");
      ("  " +:+ dq +:+ "qa_segment" +:+ dq +:+ ": [");
      ("    {{" +:+ dq +:+ "question" +:+ dq +:+ ": " +:+ dq +:+ "..." +:+ dq +:+ ", " +:+ dq +:+ "answer" +:+ dq +:+ ": " +:+ dq +:+ "..." +:+ dq +:+ "}},");
      "    ...";
      "  ]";
      "}}";
      "" ].

Definition of_result {A} (r : result A) : M A := λ w, (r, w).

Section endpoint.

(** [str(v)] for a JSON value that is not a string *)
Variable py_str : json → string.

(** [template.format(youtube_url=text)] *)
Variable str_format : string → string → result string.

(** The model call ([genai.Client(...)] and [generate_content]) on a prompt:
    the [response.text] it yields, which may be [None], or the exception
    it raises. *)
Variable generate : string → result (option string).

(** what [format] puts in place of the field: [str] of the value *)
Definition text_of (v : json) : string :=
  match v with
  | JString s => s
  | _ => py_str v
  end.

(** [process_videos_batch(video_url, PROMPT_TEMPLATE)] *)
Definition process_videos_batch (video_url : json) (template : string)
  : M (option string) :=
  let* formatted_prompt := of_result (str_format template (text_of video_url)) in
  let* attempt :=
    try_except
      (let* text := of_result (generate formatted_prompt) in
       emit (Print (Py.str text));;
       ret (inl text))
      (λ e,
         emit (Print ("An error occurred during content generation: "
                        +:+ exn_str e));;
         ret (inr ("Error processing video: " +:+ exn_str e))) in
  match attempt with
  | inr message => ret (Some message)
  | inl text => emit (Print (Py.str text));; ret text
  end.

(** [hello_http(request)] *)
Definition hello_http (req : request) : M (option string) :=
  let* name :=
    of_result
      (if truthy (request_json req) then
         match has_name (request_json req) with
         | Raise e => Raise e
         | Ret true => get_name (request_json req)
         | Ret false =>
             match request_args req !! "name" with
             | Some value => Ret (JString value)
             | None => Ret (JString "World")
             end
         end
       else
         match request_args req !! "name" with
         | Some value => Ret (JString value)
         | None => Ret (JString "World")
         end) in
  process_videos_batch name PROMPT_TEMPLATE.

End endpoint.

(** The body [call_url_processor_service] posts (main.py, line 45). *)
Definition payload (url : string) : json := JObject [("name", JString url)].

End Endpoint.

(** * Properties *)

(** ** Strings *)

Module PyFacts.

Lemma startswith_app (p s : string) : Py.startswith (p +:+ s) p = true.
Proof.
  induction p as [|c p IH]; [done|].
  change (String c p +:+ s) with (String c (p +:+ s)).
  simpl. by rewrite decide_True.
Qed.

Lemma contains_startswith (hay needle : string) :
  Py.startswith hay needle = true → Py.contains hay needle = true.
Proof. intros H. destruct hay; simpl; by rewrite H. Qed.

Lemma contains_here (needle rest : string) :
  Py.contains (needle +:+ rest) needle = true.
Proof. apply contains_startswith, startswith_app. Qed.

(** A string contains whatever was spliced into it. *)
Lemma contains_infix (before needle after : string) :
  Py.contains (before +:+ needle +:+ after) needle = true.
Proof.
  induction before as [|c before IH].
  - exact (contains_here needle after).
  - change (String c before +:+ needle +:+ after)
      with (String c (before +:+ needle +:+ after)).
    simpl. rewrite IH. by destruct (Py.startswith _ _).
Qed.

Lemma startswith_nonempty (s p : string) :
  p ≠ "" → Py.startswith s p = true → s ≠ "".
Proof. intros Hp Hs ->. by destruct p. Qed.

End PyFacts.

Arguments Py.startswith : simpl never.
Arguments Py.contains : simpl never.

(** ** Dicts *)

Module DictFacts.

Section facts.
Context {V : Type}.
Implicit Types (d : Dict.t V) (k : string) (v : V).

Lemma get_set_eq d k v : Dict.get (Dict.set d k v) k = Some v.
Proof.
  induction d as [|[k' v'] d IH]; simpl.
  - by rewrite decide_True.
  - case_decide; simpl; [by rewrite decide_True|].
    by rewrite decide_False.
Qed.

Lemma get_set_ne d k k' v :
  k ≠ k' → Dict.get (Dict.set d k v) k' = Dict.get d k'.
Proof.
  intros Hne. induction d as [|[k0 v0] d IH]; simpl.
  - by rewrite decide_False.
  - case_decide as Hk; simpl.
    + subst k0. by rewrite !decide_False.
    + by rewrite IH.
Qed.

Lemma keys_set_in d k v :
  k ∈ Dict.keys d → Dict.keys (Dict.set d k v) = Dict.keys d.
Proof.
  unfold Dict.keys. induction d as [|[k0 v0] d IH]; simpl.
  - by intros ?%elem_of_nil.
  - intros Hin. case_decide as Hk; simpl; [by subst|].
    f_equal. apply IH. apply elem_of_cons in Hin as [->|]; done.
Qed.

Lemma keys_set_fresh d k v :
  k ∉ Dict.keys d → Dict.keys (Dict.set d k v) = Dict.keys d ++ [k].
Proof.
  unfold Dict.keys. induction d as [|[k0 v0] d IH]; simpl; [done|].
  intros Hnin. apply not_elem_of_cons in Hnin as [Hne Hnin].
  rewrite decide_False; [|done]. simpl. f_equal. by apply IH.
Qed.

Lemma elem_of_keys_set d k k' v :
  k' ∈ Dict.keys (Dict.set d k v) ↔ k' = k ∨ k' ∈ Dict.keys d.
Proof.
  destruct (decide (k ∈ Dict.keys d)) as [Hin|Hnin].
  - rewrite keys_set_in; [|done]. naive_solver.
  - rewrite keys_set_fresh; [|done]. rewrite elem_of_app, list_elem_of_singleton.
    naive_solver.
Qed.

Lemma NoDup_keys_set d k v :
  NoDup (Dict.keys d) → NoDup (Dict.keys (Dict.set d k v)).
Proof.
  intros Hd. destruct (decide (k ∈ Dict.keys d)) as [Hin|Hnin].
  - by rewrite keys_set_in.
  - rewrite keys_set_fresh; [|done].
    apply NoDup_app. split_and!; [done| |apply NoDup_singleton].
    intros x Hx ->%list_elem_of_singleton. done.
Qed.

Lemma get_None d k : Dict.get d k = None ↔ k ∉ Dict.keys d.
Proof.
  unfold Dict.keys. induction d as [|[k0 v0] d IH]; simpl.
  - split; [intros _ ?%elem_of_nil|]; done.
  - rewrite not_elem_of_cons. case_decide; naive_solver.
Qed.

End facts.

End DictFacts.

Lemma queries_app tr1 tr2 : queries (tr1 ++ tr2) = queries tr1 ++ queries tr2.
Proof. apply omap_app. Qed.

Lemma done_queries_app tr1 tr2 :
  done_queries (tr1 ++ tr2) = done_queries tr1 ++ done_queries tr2.
Proof. apply omap_app. Qed.

Lemma submits_app tr1 tr2 : submits (tr1 ++ tr2) = submits tr1 ++ submits tr2.
Proof. apply omap_app. Qed.

Lemma log_lines_app tr1 tr2 :
  log_lines (tr1 ++ tr2) = log_lines tr1 ++ log_lines tr2.
Proof. apply omap_app. Qed.

Lemma done_queries_nil tr : queries tr = [] → done_queries tr = [].
Proof.
  induction tr as [|[| | |q [e|]|] tr IH]; intros Hq; try done;
    by apply IH.
Qed.

Lemma queries_Submit urls : queries (Submit <$> urls) = [].
Proof. by induction urls. Qed.

Lemma submits_Submit urls : submits (Submit <$> urls) = urls.
Proof. induction urls as [|u urls IH]; [done|]. simpl. by f_equal. Qed.

(** ** The steps of the job, one at a time *)

Ltac step := unfold bind, try_except, ret, raise, log, emit; simpl.

Ltac trace_norm :=
  unfold submits, queries, done_queries, log_lines in *;
  repeat (rewrite ?omap_app; simpl).

Lemma for_in_cons {A S} (x : A) (xs : list A) (body : A → S → M S)
    (acc : S) (w : world) :
  for_in (x :: xs) body acc w
  = match body x acc w with
    | (Ret acc', w') => for_in xs body acc' w'
    | (Raise e, w') => (Raise e, w')
    end.
Proof. done. Qed.

Section steps.

Variable ext : external.
Variable cfg : config.

Lemma futures_from_ids n items : (futures_from ext cfg n items).*1 = items.*2.
Proof.
  revert n. induction items as [|[url row_id] items IH]; intros n; [done|].
  simpl. by rewrite IH.
Qed.

Lemma futures_from_app n items1 items2 :
  futures_from ext cfg n (items1 ++ items2)
  = futures_from ext cfg n items1 ++ futures_from ext cfg (n + length items1) items2.
Proof.
  revert n. induction items1 as [|[url row_id] items1 IH]; intros n; simpl.
  - by rewrite Nat.add_0_r.
  - rewrite IH. by replace (S n + length items1) with (n + S (length items1)) by lia.
Qed.

Lemma submit_all_steps items acc w :
  ∃ w', for_in items
          (λ '(url, row_id) (futures : list (string * future)),
             let* fut := submit ext cfg url in
             ret (futures ++ [(row_id, fut)]))
          acc w
        = (Ret (acc ++ futures_from ext cfg (length (pool_logs w)) items), w')
      ∧ db w' = db w ∧ issued w' = issued w
      ∧ trace w' = trace w ++ (Submit <$> items.*1).
Proof.
  revert acc w. induction items as [|[url row_id] items IH]; intros acc w.
  - exists w. simpl. unfold ret. by rewrite !app_nil_r.
  - simpl. unfold bind at 1. unfold bind at 1. unfold submit.
    destruct (call_url_processor_service cfg url _) as [text lines] eqn:Hcall.
    unfold ret at 1.
    edestruct IH as (w' & -> & Hdb & Hissued & Htrace).
    exists w'. simpl in *. rewrite Hdb, Hissued, Htrace.
    rewrite length_app, Nat.add_1_r. simpl.
    unfold future_of. rewrite Hcall. simpl.
    by rewrite <- !app_assoc.
Qed.

Lemma collect_one_step row_id fut d w :
  ∃ w', collect_one (row_id, fut) d w
        = (Ret (Dict.set d row_id (classify row_id fut)), w')
      ∧ db w' = db w ∧ issued w' = issued w
      ∧ ∃ evs, trace w' = trace w ++ evs
               ∧ queries evs = [] ∧ submits evs = [].
Proof.
  unfold collect_one, future_result, classify.
  destruct (fut_wait fut) as [| |e]; step.
  - destruct (Py.startswith _ _);
      (eexists; split_and!; [done..|]); exists []; by rewrite app_nil_r.
  - eexists; split_and!; [done..|]. eexists. by split_and!.
  - destruct e; step; (eexists; split_and!; [done..|]);
      eexists; by split_and!.
Qed.

Lemma collect_all_steps futures d w :
  ∃ w', for_in futures collect_one d w = (Ret (record_all futures d), w')
      ∧ db w' = db w ∧ issued w' = issued w
      ∧ ∃ evs, trace w' = trace w ++ evs
               ∧ queries evs = [] ∧ submits evs = [].
Proof.
  revert d w. induction futures as [|[row_id fut] futures IH]; intros d w.
  - exists w. split_and!; [done..|]. exists []. by rewrite app_nil_r.
  - rewrite for_in_cons.
    destruct (collect_one_step row_id fut d w)
      as (w1 & -> & Hdb1 & Hissued1 & evs1 & Htr1 & Hq1 & Hs1).
    destruct (IH (Dict.set d row_id (classify row_id fut)) w1)
      as (w2 & -> & Hdb2 & Hissued2 & evs2 & Htr2 & Hq2 & Hs2).
    exists w2. split_and!; [done|congruence..|].
    exists (evs1 ++ evs2).
    rewrite Htr2, Htr1, queries_app, submits_app, Hq1, Hq2, Hs1, Hs2.
    by rewrite app_assoc.
Qed.

(** Step 3 as a whole: it returns, whatever the calls do. *)
Lemma dispatch_steps items w :
  ∃ w', dispatch ext cfg items w
        = (Ret (record_all (futures_from ext cfg (length (pool_logs w)) items)
                  Dict.empty), w')
      ∧ db w' = db w ∧ issued w' = issued w
      ∧ ∃ evs, trace w' = trace w ++ evs
               ∧ queries evs = [] ∧ submits evs = items.*1.
Proof.
  unfold dispatch. unfold bind at 1. unfold submit_all.
  destruct (submit_all_steps items [] w) as (w1 & -> & Hdb1 & Hi1 & Htr1).
  rewrite app_nil_l.
  destruct (collect_all_steps
              (futures_from ext cfg (length (pool_logs w)) items) Dict.empty w1)
    as (w2 & -> & Hdb2 & Hi2 & evs2 & Htr2 & Hq2 & Hs2).
  exists w2. split_and!; [done|congruence..|].
  exists ((Submit <$> items.*1) ++ evs2).
  rewrite Htr2, Htr1, queries_app, submits_app, Hq2, Hs2, !app_nil_r.
  split_and!; [by rewrite app_assoc| |].
  - apply queries_Submit.
  - apply submits_Submit.
Qed.

End steps.

Arguments Sql.exec : simpl never.

Section write_steps.

Variable ext : external.
Variable cfg : config.

(** A statement either is carried out or raises; either way exactly one
    [Query] event is added and the counter moves by one. *)
Lemma bq_query_step q w :
  (∃ rows db',
      store_fault ext (issued w) = None
      ∧ Sql.exec q (db w) = Some (rows, db')
      ∧ bq_query ext q w
        = (Ret rows, {| db := db'; issued := S (issued w);
                        trace := trace w ++ [Query q None];
                        pool_logs := pool_logs w |}))
  ∨ (∃ e,
      refused ext (issued w) q (db w) e
      ∧ bq_query ext q w
        = (Raise e, {| db := db w; issued := S (issued w);
                       trace := trace w ++ [Query q (Some e)];
                       pool_logs := pool_logs w |})).
Proof.
  unfold bq_query.
  destruct (store_fault ext (issued w)) as [e|] eqn:Hfault.
  - right. exists e. split; [by left|done].
  - destruct (Sql.exec q (db w)) as [[rows db']|] eqn:Hexec.
    + left. by exists rows, db'.
    + right. eexists. split; [by right|done].
Qed.

(** [update_bq_row] always returns a boolean; it never raises. *)
Lemma update_bq_row_step row_id context status w :
  ∃ ok w' evs,
    update_bq_row ext cfg row_id context status w = (Ret ok, w')
    ∧ trace w' = trace w ++ evs
    ∧ submits evs = []
    ∧ done_queries evs
      = (if ok then [UpdateRow (table_ref cfg (BIGQUERY_TABLE_TARGET cfg))
                       context status row_id] else [])
    ∧ if Py.truthy (BIGQUERY_TABLE_TARGET cfg) then
        queries evs = [UpdateRow (table_ref cfg (BIGQUERY_TABLE_TARGET cfg))
                         context status row_id]
        ∧ issued w' = S (issued w)
      else
        queries evs = [] ∧ log_lines evs = [NOT_CONFIGURED] ∧ ok = false
        ∧ db w' = db w ∧ issued w' = issued w.
Proof.
  unfold update_bq_row.
  destruct (Py.truthy (BIGQUERY_TABLE_TARGET cfg)); simpl.
  - unfold try_except. unfold bind at 1.
    destruct (bq_query_step
                (UpdateRow (table_ref cfg (BIGQUERY_TABLE_TARGET cfg))
                   context status row_id) w)
      as [(rows & db' & _ & _ & ->)|(e & _ & ->)]; step.
    + exists true. eexists. eexists. split; [done|]. simpl.
      rewrite <- app_assoc. by split_and!.
    + exists false. eexists. eexists. split; [done|]. simpl.
      rewrite <- app_assoc. split_and!; [done..| |done|done].
      by destruct e.
  - step. exists false. eexists. eexists. split; [done|]. simpl.
    by split_and!.
Qed.

(** Step 4: every item of the dict gets its call of [update_bq_row], in
    the order of the dict, whatever the earlier calls returned. *)
Lemma write_back_steps (d : Dict.t outcome) acc w :
  ∃ n w' evs,
    for_in (Dict.items d)
      (λ '(row_id, data) successful_updates,
         let* ok := update_bq_row ext cfg row_id (context data) (status data) in
         if ok then ret (S successful_updates) else ret successful_updates)
      acc w
    = (Ret n, w')
    ∧ trace w' = trace w ++ evs
    ∧ submits evs = []
    ∧ n = acc + length (done_queries evs)
    ∧ if Py.truthy (BIGQUERY_TABLE_TARGET cfg) then
        queries evs = write_of cfg <$> d
        ∧ issued w' = issued w + length d
      else
        queries evs = []
        ∧ log_lines evs = replicate (length d) NOT_CONFIGURED
        ∧ n = acc ∧ db w' = db w ∧ issued w' = issued w.
Proof.
  unfold Dict.items.
  revert acc w. induction d as [|[row_id data] d IH]; intros acc w.
  - exists acc, w, []. simpl. unfold ret. rewrite app_nil_r.
    split_and!; [done|done|done|lia|].
    destruct (Py.truthy _); split_and!; done || lia.
  - rewrite for_in_cons. unfold bind at 1.
    destruct (update_bq_row_step row_id (context data) (status data) w)
      as (ok & w1 & evs1 & -> & Htr1 & Hs1 & Hdone1 & Hcase1).
    set (acc1 := if ok then S acc else acc).
    destruct (IH acc1 w1) as (n & w2 & evs2 & Hrun & Htr2 & Hs2 & Hn & Hcase2).
    exists n, w2, (evs1 ++ evs2).
    split.
    { destruct ok; unfold ret at 1; exact Hrun. }
    rewrite Htr2, Htr1, submits_app, done_queries_app, queries_app,
      log_lines_app, Hs1, Hs2, length_app, Hdone1, app_assoc.
    split_and!; [done|done| |].
    + subst acc1 n. destruct ok; simpl; lia.
    + destruct (Py.truthy (BIGQUERY_TABLE_TARGET cfg)).
      * destruct Hcase1 as [-> Hi1], Hcase2 as [-> Hi2]. simpl.
        split; [done|lia].
      * destruct Hcase1 as (-> & -> & -> & Hdb1 & Hi1).
        destruct Hcase2 as (-> & -> & Hn2 & Hdb2 & Hi2). simpl.
        split_and!; [done|done| |congruence..].
        by subst acc1.
Qed.

Lemma write_back_spec (d : Dict.t outcome) w :
  ∃ n w' evs,
    write_back ext cfg d w = (Ret n, w')
    ∧ trace w' = trace w ++ evs
    ∧ submits evs = []
    ∧ n = length (done_queries evs)
    ∧ if Py.truthy (BIGQUERY_TABLE_TARGET cfg) then
        queries evs = write_of cfg <$> d
        ∧ issued w' = issued w + length d
      else
        queries evs = []
        ∧ log_lines evs = replicate (length d) NOT_CONFIGURED
        ∧ n = 0 ∧ db w' = db w ∧ issued w' = issued w.
Proof. apply (write_back_steps d 0 w). Qed.

End write_steps.

(** ** The runs of [process_batch_from_bq] *)

Section runs.

Variable ext : external.
Variable cfg : config.

Lemma exec_fetch_tables rows tables tables' :
  Sql.exec (fetch_query cfg) tables = Some (rows, tables') → tables' = tables.
Proof.
  unfold fetch_query, Sql.exec. destruct (tables !! _); simpl; congruence.
Qed.

Lemma exec_claim_rows fetched rows tables tables' :
  Sql.exec (claim_query cfg fetched) tables = Some (rows, tables') → rows = [].
Proof.
  unfold claim_query, Sql.exec. destruct (tables !! _); simpl; congruence.
Qed.

Lemma process_batch_from_bq_run w :
  ∃ r w' evs,
    process_batch_from_bq ext cfg w = (r, w')
    ∧ trace w' = trace w ++ evs
    ∧ batch_run ext cfg w r w' evs.
Proof.
  unfold process_batch_from_bq.
  destruct (Py.truthy (BIGQUERY_TABLE_SOURCE cfg)) eqn:Hsrc; simpl.
  2:{ step. do 3 eexists. split_and!; [done..|].
      apply Run_config_error; auto. }
  destruct (URL_PROCESSOR_SERVICE_URL cfg) as [|c url] eqn:Hurl; simpl.
  { step. do 3 eexists. split_and!; [done..|].
    apply Run_config_error; auto. }
  unfold bind at 1. unfold emit at 1. unfold try_except.
  unfold bind at 1. unfold log at 1, emit at 1. unfold bind at 1.
  match goal with
  | |- context [bq_query ext ?q ?w1] =>
      destruct (bq_query_step ext q w1)
        as [(fetched & db1 & Hf0 & Hfetch & ->)|(e & He & ->)]
  end; simpl in *.
  2:{ (* the fetch raised *)
    assert (∀ w' evs,
               queries evs = [fetch_query cfg] → done_queries evs = [] →
               submits evs = [] → db w' = db w →
               batch_run ext cfg w (outer_except e) w' evs) as Hrun
      by (intros; by apply Run_fetch_raised).
    destruct e; step;
      (do 3 eexists; split; [done|]; rewrite <- !app_assoc;
       split; [done|]; by apply Hrun). }
  pose proof (exec_fetch_tables _ _ _ Hfetch) as ->.
  destruct fetched as [|item fetched'] eqn:Hfetched.
  { (* nothing pending *)
    step. do 3 eexists. split; [done|]. rewrite <- !app_assoc.
    split; [done|]. by apply Run_nothing_pending. }
  rewrite <- Hfetched in *. assert (fetched ≠ []) as Hne by by subst.
  clear Hfetched item fetched'.
  unfold bind at 1. unfold log at 1, emit at 1. unfold bind at 1.
  match goal with
  | |- context [bq_query ext ?q ?w2] =>
      destruct (bq_query_step ext q w2)
        as [(rows & claimed & Hf1 & Hclaim & ->)|(e & He & ->)]
  end; simpl in *.
  2:{ (* the claim raised *)
    assert (∀ w' evs,
               queries evs = [fetch_query cfg; claim_query cfg fetched] →
               done_queries evs = [fetch_query cfg] →
               submits evs = [] → db w' = db w →
               batch_run ext cfg w (outer_except e) w' evs) as Hrun
      by (intros; by eapply Run_claim_raised).
    destruct e; step;
      (do 3 eexists; split; [done|]; rewrite <- !app_assoc;
       split; [done|]; by apply Hrun). }
  pose proof (exec_claim_rows _ _ _ _ Hclaim) as ->.
  unfold bind at 1. unfold log at 1, emit at 1. unfold bind at 1.
  match goal with
  | |- context [dispatch ext cfg fetched ?w3] =>
      destruct (dispatch_steps ext cfg fetched w3)
        as (w4 & -> & Hdb4 & Hi4 & evs4 & Htr4 & Hq4 & Hs4)
  end; simpl in *.
  set (d := record_all _ _) in *.
  unfold bind at 1. unfold log at 1, emit at 1. unfold bind at 1.
  match goal with
  | |- context [write_back ext cfg d ?w5] =>
      destruct (write_back_spec ext cfg d w5)
        as (n & w6 & evs6 & -> & Htr6 & Hs6 & Hn & Hcase)
  end; simpl in *.
  step. do 3 eexists. split; [done|]. simpl.
  rewrite Htr6, Htr4, <- !app_assoc. simpl.
  split; [done|].
  match goal with
  | |- batch_run _ _ _ _ ?wf (?e1 :: ?e2 :: ?e3 :: ?e4 :: Query ?q None :: ?post) =>
      change (batch_run ext cfg w (Ret (batch_report (Dict.len d) n)) wf
                ([e1; e2; e3; e4]
                   ++ Query (claim_query cfg fetched) None :: post))
  end.
  apply (Run_complete ext cfg w fetched claimed d n); try done.
  - trace_norm. by rewrite Hs4, Hs6, app_nil_r.
  - trace_norm. rewrite Hq4, app_nil_r. simpl.
    destruct (Py.truthy (BIGQUERY_TABLE_TARGET cfg)); by destruct Hcase as [-> _].
  - rewrite Hn. apply done_queries_nil in Hq4. clear -Hq4.
    trace_norm. by rewrite Hq4, app_nil_r.
  - rewrite app_comm_cons, (app_comm_cons evs6), app_assoc.
    apply last_snoc.
  - intros Htarget. rewrite Htarget in Hcase. simpl.
    destruct Hcase as (_ & _ & _ & -> & _). done.
Qed.

End runs.

(** ** What step 3 leaves in [processed_results] *)

Section outcomes.

Implicit Types (futures : list (string * future)) (d : Dict.t outcome).

Lemma record_all_app futures1 futures2 d :
  record_all (futures1 ++ futures2) d
  = record_all futures2 (record_all futures1 d).
Proof. apply foldl_app. Qed.

Lemma elem_of_keys_record_all futures d k :
  k ∈ Dict.keys (record_all futures d) ↔ k ∈ Dict.keys d ∨ k ∈ futures.*1.
Proof.
  revert d. induction futures as [|[row_id fut] futures IH]; intros d; simpl.
  - rewrite elem_of_nil. naive_solver.
  - rewrite IH, DictFacts.elem_of_keys_set, elem_of_cons. naive_solver.
Qed.

Lemma NoDup_keys_record_all futures d :
  NoDup (Dict.keys d) → NoDup (Dict.keys (record_all futures d)).
Proof.
  revert d. induction futures as [|[row_id fut] futures IH]; intros d Hd; [done|].
  simpl. by apply IH, DictFacts.NoDup_keys_set.
Qed.

(** With pairwise distinct ids the dict has the ids in submission order. *)
Lemma keys_record_all_NoDup futures d :
  NoDup (Dict.keys d ++ futures.*1) →
  Dict.keys (record_all futures d) = Dict.keys d ++ futures.*1.
Proof.
  revert d. induction futures as [|[row_id fut] futures IH]; intros d Hd; simpl.
  - by rewrite app_nil_r.
  - simpl in Hd.
    assert (row_id ∉ Dict.keys d) as Hfresh.
    { apply NoDup_app in Hd as (_ & Hd & _). intros Hin.
      apply (Hd _ Hin). by left. }
    rewrite IH; rewrite DictFacts.keys_set_fresh by done.
    + by rewrite <- app_assoc.
    + by rewrite <- app_assoc.
Qed.

Lemma get_record_all_other futures d k :
  k ∉ futures.*1 → Dict.get (record_all futures d) k = Dict.get d k.
Proof.
  revert d. induction futures as [|[row_id fut] futures IH]; intros d Hk; [done|].
  simpl in *. apply not_elem_of_cons in Hk as [Hne Hk].
  rewrite IH by done. by apply DictFacts.get_set_ne.
Qed.

(** The entry of an id is the classification of the last future with it. *)
Lemma get_record_all_last before row_id fut after d :
  row_id ∉ after.*1 →
  Dict.get (record_all (before ++ (row_id, fut) :: after) d) row_id
  = Some (classify row_id fut).
Proof.
  intros Hlast. rewrite record_all_app. simpl.
  rewrite get_record_all_other by done. apply DictFacts.get_set_eq.
Qed.

Lemma len_record_all futures :
  Dict.len (record_all futures Dict.empty) = length (remove_dups futures.*1).
Proof.
  unfold Dict.len.
  rewrite <- (length_fmap fst (record_all futures Dict.empty)).
  apply Permutation_length, NoDup_Permutation.
  - apply NoDup_keys_record_all, NoDup_nil_2.
  - apply NoDup_remove_dups.
  - intros k. rewrite elem_of_remove_dups.
    rewrite (elem_of_keys_record_all futures Dict.empty k).
    unfold Dict.keys, Dict.empty. simpl. rewrite elem_of_nil. naive_solver.
Qed.

End outcomes.

(** ** The module as a whole *)

Section startup.

Variable ext : external.

Lemma main_runs environ w :
  ∃ r w' evs,
    main ext environ w = (r, w')
    ∧ trace w' = trace w ++ evs
    ∧ main_run ext environ w r w' evs.
Proof.
  unfold main. cbv zeta.
  remember (load_config environ) as cfg eqn:Hcfg.
  unfold bind at 1. unfold try_except at 1.
  unfold bind at 1. unfold emit at 1.
  destruct (client_fault ext) as [e|] eqn:Hclient.
  { step. do 3 eexists. split; [done|]. rewrite <- app_assoc.
    split; [done|]. by apply Main_client_fault. }
  unfold log at 1, emit at 1. simpl.
  destruct (URL_PROCESSOR_SERVICE_URL cfg) as [|c url] eqn:Hurl; simpl.
  { step. do 3 eexists. split; [done|]. rewrite <- !app_assoc.
    split; [done|]. apply Main_no_endpoint; subst; done. }
  match goal with
  | |- context [process_batch_from_bq ext cfg ?w1] =>
      destruct (process_batch_from_bq_run ext cfg w1)
        as (r & w' & evs & -> & Htr & Hrun)
  end.
  simpl in Htr. rewrite <- !app_assoc in Htr.
  exists r, w',
    ([ClientInit (BIGQUERY_PROJECT cfg);
      Log INFO "BigQuery client initialized successfully."] ++ evs).
  split; [done|]. split; [exact Htr|].
  subst cfg.
  eapply Main_job; only 8: exact Hrun; try done. by rewrite Hurl.
Qed.

End startup.


(** * The claims *)

(** ** Dispatcher *)

(** C1: for every batch of [n] work items and whatever the calls and the
    waits do (HTTP error statuses, network faults, time-outs, any exception
    raised while a result is retrieved), the dispatcher returns and never
    raises. An id identifies its row, so the ids of a batch are pairwise
    distinct, and then the dict returned has exactly [n] outcomes, one per
    item and in the order of the batch: no item is dropped and none has two.
    The outcomes are keyed by id: in every case the keys of the dict are
    pairwise distinct and are the ids of the batch. *)
Theorem dispatch_one_outcome_per_id (ext : external) (cfg : config)
    (items : list (string * string)) (w : world) :
  ∃ d w',
    dispatch ext cfg items w = (Ret d, w')
    ∧ NoDup (Dict.keys d)
    ∧ (∀ row_id, row_id ∈ Dict.keys d ↔ row_id ∈ items.*2)
    ∧ Dict.len d = length (remove_dups items.*2)
    ∧ (NoDup items.*2 → Dict.keys d = items.*2 ∧ Dict.len d = length items).
Proof.
  destruct (dispatch_steps ext cfg items w) as (w' & Hrun & _).
  eexists _, w'. split; [exact Hrun|].
  set (futures := futures_from ext cfg (length (pool_logs w)) items).
  assert (futures.*1 = items.*2) as Hids by apply futures_from_ids.
  split_and!.
  - apply NoDup_keys_record_all, NoDup_nil_2.
  - intros row_id. rewrite elem_of_keys_record_all, Hids.
    unfold Dict.keys, Dict.empty. simpl. rewrite elem_of_nil. naive_solver.
  - by rewrite len_record_all, Hids.
  - intros Hdistinct.
    assert (Dict.keys (record_all futures Dict.empty) = items.*2) as Hkeys.
    { rewrite keys_record_all_NoDup; rewrite Hids; done. }
    split; [done|].
    unfold Dict.len.
    rewrite <- (length_fmap fst (record_all futures Dict.empty)).
    unfold Dict.keys in Hkeys. by rewrite Hkeys, length_fmap.
Qed.

Lemma dispatch_one_outcome_per_id_witness :
  let items := [("https://a.example/1", "row-1");
                ("https://a.example/2", "row-2");
                ("https://a.example/3", "row-3")] in
  ∃ d w',
    dispatch (always RequestTimeout TimedOut) Sample.cfg items
      (init_world ∅) = (Ret d, w')
    ∧ Dict.keys d = ["row-1"; "row-2"; "row-3"] ∧ Dict.len d = 3.
Proof.
  intros items.
  destruct (dispatch_one_outcome_per_id
              (always RequestTimeout TimedOut) Sample.cfg items
              (init_world ∅))
    as (d & w' & Hrun & _ & _ & _ & Hdistinct).
  exists d, w'. split; [exact Hrun|].
  apply Hdistinct.
  change (NoDup ["row-1"; "row-2"; "row-3"]).
  refine (bool_decide_unpack _ _). vm_compute. exact I.
Defined.

(** Because the outcomes are keyed by id, rows that carried one and the same
    id (which the data model rules out) would share one entry. *)
Example dispatch_merges_equal_ids :
  let items := [("https://a.example/1", "row-1");
                ("https://a.example/2", "row-1")] in
  ∃ d w',
    dispatch (Sample.answering "summary") Sample.cfg items (init_world ∅)
    = (Ret d, w')
    ∧ Dict.len d = 1 ∧ length items = 2.
Proof. vm_compute. eauto. Qed.

(** The entry step 3 leaves for an item that no later item of the batch
    shares its id with. *)
Lemma dispatch_entry (ext : external) (cfg : config)
    (before : list (string * string)) (url row_id : string)
    (after : list (string * string)) (w : world) :
  row_id ∉ after.*2 →
  ∃ d w',
    dispatch ext cfg (before ++ (url, row_id) :: after) w = (Ret d, w')
    ∧ Dict.get d row_id
      = Some (classify row_id
                (future_of ext cfg (length (pool_logs w) + length before) url)).
Proof.
  intros Hlast.
  destruct (dispatch_steps ext cfg (before ++ (url, row_id) :: after) w)
    as (w' & Hrun & _).
  eexists _, w'. split; [exact Hrun|].
  rewrite futures_from_app. simpl.
  apply get_record_all_last. by rewrite futures_from_ids.
Qed.

(** C5: an item whose call returns text in time gets, at its turn of the
    second loop, the outcome whose context is that text verbatim and whose
    status is FAILED_PROCESSING when the text starts with "ERROR:" and
    COMPLETED otherwise; this is the entry of its id in the dispatcher's
    result unless a later item of the batch carries the same id. *)
Theorem returned_text_classified_by_prefix (ext : external) (cfg : config)
    (before : list (string * string)) (url row_id : string)
    (after : list (string * string)) (w : world) :
  let n := length (pool_logs w) + length before in
  let text := (call_url_processor_service cfg url (http (worker ext n url))).1 in
  let expected :=
    {| context := text;
       status := if Py.startswith text "ERROR:"
                 then "FAILED_PROCESSING" else "COMPLETED" |} in
  wait (worker ext n url) = InTime →
  (∀ d0 w0, ∃ d1 w1,
      collect_one (row_id, future_of ext cfg n url) d0 w0 = (Ret d1, w1)
      ∧ Dict.get d1 row_id = Some expected)
  ∧ (row_id ∉ after.*2 →
     ∃ d w',
       dispatch ext cfg (before ++ (url, row_id) :: after) w = (Ret d, w')
       ∧ Dict.get d row_id = Some expected).
Proof.
  intros n text expected Hwait.
  assert (classify row_id (future_of ext cfg n url) = expected) as Hclass.
  { unfold classify, future_of. simpl. by rewrite Hwait. }
  split.
  - intros d0 w0.
    destruct (collect_one_step row_id (future_of ext cfg n url) d0 w0)
      as (w1 & Hrun & _).
    rewrite Hclass in Hrun.
    eexists _, w1. split; [exact Hrun|]. apply DictFacts.get_set_eq.
  - intros Hlast.
    destruct (dispatch_entry ext cfg before url row_id after w Hlast)
      as (d & w' & Hrun & Hget).
    exists d, w'. split; [exact Hrun|]. rewrite Hget. f_equal. exact Hclass.
Qed.

Lemma returned_text_classified_by_prefix_witness :
  let items := [("https://a.example/1", "row-1");
                ("https://a.example/2", "row-2")] in
  (∃ d w',
      dispatch (Sample.answering "ERROR: quota exceeded") Sample.cfg items
        (init_world ∅) = (Ret d, w')
      ∧ Dict.get d "row-1"
        = Some {| context := "ERROR: quota exceeded";
                  status := "FAILED_PROCESSING" |})
  ∧ (∃ d w',
      dispatch (Sample.answering "A chapter about queues") Sample.cfg items
        (init_world ∅) = (Ret d, w')
      ∧ Dict.get d "row-1"
        = Some {| context := "A chapter about queues";
                  status := "COMPLETED" |}).
Proof.
  split.
  - refine (proj2 (returned_text_classified_by_prefix
                     (Sample.answering "ERROR: quota exceeded") Sample.cfg
                     [] "https://a.example/1" "row-1"
                     [("https://a.example/2", "row-2")] (init_world ∅)
                     eq_refl) _).
    refine (bool_decide_unpack _ _). vm_compute. exact I.
  - refine (proj2 (returned_text_classified_by_prefix
                     (Sample.answering "A chapter about queues") Sample.cfg
                     [] "https://a.example/1" "row-1"
                     [("https://a.example/2", "row-2")] (init_world ∅)
                     eq_refl) _).
    refine (bool_decide_unpack _ _). vm_compute. exact I.
Defined.

(** ** Time-outs *)

(** C4, as stated, fails: when the HTTP request itself times out, the text
    [call_url_processor_service] returns names the url and the endpoint; the
    outcome is FAILED_PROCESSING but its context does not contain the id. *)
Lemma request_timeout_context_lacks_id :
  ∃ d w' o,
    dispatch (always RequestTimeout InTime) Sample.cfg
      [("https://a.example/1", "row-7")] (init_world ∅) = (Ret d, w')
    ∧ Dict.get d "row-7" = Some o
    ∧ status o = "FAILED_PROCESSING"
    ∧ context o = "ERROR: Timeout processing 'https://a.example/1' at https://processor.example"
    ∧ Py.contains (context o) "row-7" = false.
Proof. vm_compute. eauto 10. Qed.

(** C4, amended: an item whose wait on the future runs out gets status
    FAILED_PROCESSING and the context "ERROR: Processing timed out for
    '<id>'.", which contains its id, whatever its HTTP call does or would
    have done; an item whose HTTP request times out inside the processing
    call gets status FAILED_PROCESSING and the context "ERROR: Timeout
    processing '<url>' at <endpoint>", which contains its url. (Stated for an
    item whose id no later item of the batch carries.) *)
Theorem timed_out_item_is_failed (ext : external) (cfg : config)
    (before : list (string * string)) (url row_id : string)
    (after : list (string * string)) (w : world) :
  let n := length (pool_logs w) + length before in
  let wait_message := "ERROR: Processing timed out for '" +:+ row_id +:+ "'." in
  let request_message :=
    "ERROR: Timeout processing '" +:+ url +:+ "' at "
      +:+ URL_PROCESSOR_SERVICE_URL cfg in
  row_id ∉ after.*2 →
  ∃ d w',
    dispatch ext cfg (before ++ (url, row_id) :: after) w = (Ret d, w')
    ∧ (wait (worker ext n url) = TimedOut →
       Dict.get d row_id
       = Some {| context := wait_message; status := "FAILED_PROCESSING" |}
       ∧ Py.contains wait_message row_id = true)
    ∧ (wait (worker ext n url) = InTime →
       http (worker ext n url) = RequestTimeout →
       Dict.get d row_id
       = Some {| context := request_message; status := "FAILED_PROCESSING" |}
       ∧ Py.contains request_message url = true).
Proof.
  intros n wait_message request_message Hlast.
  destruct (dispatch_entry ext cfg before url row_id after w Hlast)
    as (d & w' & Hrun & Hget).
  exists d, w'. split; [exact Hrun|]. fold n in Hget. split.
  - intros Hwait. split.
    + rewrite Hget. unfold classify, future_of. simpl. by rewrite Hwait.
    + apply PyFacts.contains_infix.
  - intros Hwait Hhttp. split.
    + assert (Py.startswith request_message "ERROR:" = true) as Hprefix
        by exact (PyFacts.startswith_app "ERROR:" _).
      rewrite Hget. unfold classify, future_of. cbn [fut_wait fut_value].
      rewrite Hwait. unfold call_url_processor_service. rewrite Hhttp.
      cbn [fst]. fold request_message. by rewrite Hprefix.
    + apply PyFacts.contains_infix.
Qed.

Lemma timed_out_item_is_failed_witness :
  ∃ d w',
    dispatch (always (Response 200 "OK" Sample.response_url "A chapter") TimedOut)
      Sample.cfg [("https://a.example/1", "row-7")] (init_world ∅)
    = (Ret d, w')
    ∧ Dict.get d "row-7"
      = Some {| context := "ERROR: Processing timed out for 'row-7'.";
                status := "FAILED_PROCESSING" |}
    ∧ Py.contains "ERROR: Processing timed out for 'row-7'." "row-7" = true.
Proof.
  destruct (timed_out_item_is_failed
              (always (Response 200 "OK" Sample.response_url "A chapter") TimedOut)
              Sample.cfg [] "https://a.example/1" "row-7" [] (init_world ∅))
    as (d & w' & Hrun & Hwait & _).
  { simpl. apply not_elem_of_nil. }
  exists d, w'. split; [exact Hrun|]. exact (Hwait eq_refl).
Defined.

(** ** The error marker *)


Lemma ok_response_text (cfg : config) (url reason response_url text : string) :
  (call_url_processor_service cfg url
     (Response 200 reason response_url text)).1 = text.
Proof. done. Qed.


(** ** Reconciliation *)

Lemma length_done_queries tr :
  (length (done_queries tr) ≤ length (queries tr))%nat.
Proof.
  induction tr as [|[| | |q [e|]|] tr IH]; simpl in *; lia.
Qed.

(** C7: whatever the store answers, the write-back loop runs to its end and
    returns a count; with a target table configured it sends exactly one
    UPDATE per outcome, in the order of the dict, also after writes that
    failed; without one, each outcome gets its call of [update_bq_row], which
    logs that the target is not configured and returns [False]. The count
    returned is the number of UPDATEs the store carried out. *)
Theorem write_back_attempts_every_outcome (ext : external) (cfg : config)
    (processed_results : Dict.t outcome) (w : world) :
  ∃ successful_updates w' evs,
    write_back ext cfg processed_results w = (Ret successful_updates, w')
    ∧ trace w' = trace w ++ evs
    ∧ successful_updates = length (done_queries evs)
    ∧ (successful_updates ≤ Dict.len processed_results)%nat
    ∧ if Py.truthy (BIGQUERY_TABLE_TARGET cfg) then
        queries evs = write_of cfg <$> Dict.items processed_results
      else
        queries evs = []
        ∧ log_lines evs
          = replicate (Dict.len processed_results) NOT_CONFIGURED.
Proof.
  destruct (write_back_spec ext cfg processed_results w)
    as (n & w' & evs & Hrun & Htr & _ & Hn & Hcase).
  exists n, w', evs. split_and!; [done..| |].
  - pose proof (length_done_queries evs) as Hle. rewrite <- Hn in Hle.
    destruct (Py.truthy (BIGQUERY_TABLE_TARGET cfg)).
    + destruct Hcase as [Hq _]. rewrite Hq, length_fmap in Hle. exact Hle.
    + destruct Hcase as (_ & _ & -> & _). lia.
  - destruct (Py.truthy (BIGQUERY_TABLE_TARGET cfg)).
    + by destruct Hcase as [-> _].
    + by destruct Hcase as (-> & -> & _).
Qed.

(** A run of the loop in which the store refuses the first two of three
    writes: all three are sent, the third is carried out. *)
Example write_back_after_failures :
  let ext := {| client_fault := None;
                store_fault := λ i, if Nat.ltb i 2
                                    then Some (Exception "503") else None;
                worker := λ _ _, {| http := RequestTimeout; wait := InTime |} |} in
  let d := [("row-1", {| context := "a"; status := "COMPLETED" |});
            ("row-2", {| context := "b"; status := "COMPLETED" |});
            ("row-3", {| context := "c"; status := "COMPLETED" |})] in
  let run := write_back ext Sample.cfg d
               (init_world (Sample.tables [Sample.pending "row-3" "u"])) in
  run.1 = Ret 1
  ∧ queries (trace run.2) = write_of Sample.cfg <$> d
  ∧ done_queries (trace run.2)
    = [UpdateRow "proj.videos.urls" "c" "COMPLETED" "row-3"].
Proof. vm_compute. done. Qed.

(** ** Order of claim, dispatch and write-back *)

Lemma mark_processing_status (row_ids : list string) (r : row) :
  row_id r ∈ row_ids →
  row_status (Sql.mark_processing row_ids r) = "PROCESSING".
Proof. intros Hin. unfold Sql.mark_processing. by rewrite bool_decide_eq_true_2. Qed.

Lemma mark_processing_id (row_ids : list string) (r : row) :
  row_id (Sql.mark_processing row_ids r) = row_id r.
Proof. unfold Sql.mark_processing. by case_bool_decide. Qed.

Lemma writes_are_for_claimed_ids (ext : external) (cfg : config) (n : nat)
    (fetched : list (string * string)) (q : query) :
  q ∈ write_of cfg <$> record_all (futures_from ext cfg n fetched) Dict.empty →
  ∃ table context status row_id,
    q = UpdateRow table context status row_id ∧ row_id ∈ fetched.*2.
Proof.
  intros ([row_id o] & -> & Hin)%list_elem_of_fmap.
  exists (table_ref cfg (BIGQUERY_TABLE_TARGET cfg)), (context o), (status o),
    row_id.
  split; [done|].
  assert (row_id ∈ Dict.keys
            (record_all (futures_from ext cfg n fetched) Dict.empty)) as Hkey.
  { unfold Dict.keys. apply list_elem_of_fmap. by exists (row_id, o). }
  apply elem_of_keys_record_all in Hkey as [Hkey|Hkey].
  - by apply elem_of_nil in Hkey.
  - by rewrite futures_from_ids in Hkey.
Qed.

(** Once the claim is carried out, a later SELECT of pending rows (of this
    or of another job instance) returns none of the claimed ids. *)
Lemma claimed_rows_are_not_pending (rows : list row) (row_ids : list string)
    (limit : nat) (url row_id : string) :
  (url, row_id) ∈ Sql.select_pending (Sql.mark_processing row_ids <$> rows) limit →
  row_id ∉ row_ids.
Proof.
  unfold Sql.select_pending.
  intros (r & [= -> ->] & Hin)%list_elem_of_fmap Hclaimed.
  apply elem_of_take in Hin as (i & Hin%list_elem_of_lookup_2 & _).
  apply list_elem_of_filter in Hin as [Hpending Hin].
  apply list_elem_of_fmap in Hin as (r0 & -> & _).
  rewrite mark_processing_id in Hclaimed.
  unfold Sql.is_pending in Hpending. apply bool_decide_unpack in Hpending.
  by rewrite mark_processing_status in Hpending.
Qed.

(** C2: in every run of the module, either nothing is handed to the pool and
    no result is written, or the trace splits around one claim statement that
    the store carried out and that covers all fetched ids: before it there is
    no submission, no write and no other claim; after it come the submissions
    of exactly the fetched urls, and every later statement is a result write
    for one of the claimed ids. *)
Theorem claim_precedes_dispatch_and_writes (ext : external)
    (environ : gmap string string) (tables : gmap string (list row)) :
  let tr := trace (main ext environ (init_world tables)).2 in
  (submits tr = []
   ∧ ∀ q, q ∈ queries tr → is_write q = false)
  ∨ ∃ pre post fetched,
      tr = pre ++ Query (claim_query (load_config environ) fetched) None :: post
      ∧ submits pre = []
      ∧ (∀ q, q ∈ queries pre → is_write q = false ∧ is_claim q = false)
      ∧ submits post = fetched.*1
      ∧ (∀ q, q ∈ queries post →
           ∃ table context status row_id,
             q = UpdateRow table context status row_id
             ∧ row_id ∈ fetched.*2).
Proof.
  intros tr. subst tr.
  destruct (main_runs ext environ (init_world tables))
    as (r & w' & evs & -> & Htr & Hrun).
  simpl in Htr. simpl. rewrite Htr. clear Htr.
  destruct Hrun as [e w' evs _ Hq Hs _|w' evs _ _ Hq Hs _
                   |r w1 w' pre evs _ _ _ _ _ Hq Hs Hbatch].
  - left. rewrite Hq, Hs. split; [done|]. by intros q ?%elem_of_nil.
  - left. rewrite Hq, Hs. split; [done|]. by intros q ?%elem_of_nil.
  - rewrite queries_app, submits_app, Hq, Hs. simpl.
    destruct Hbatch
      as [msg w' evs _ Hq' Hs' _
         |e w' evs _ _ Hq' _ Hs' _
         |w' evs _ _ _ Hq' Hs' _
         |fetched e w' evs _ _ _ _ _ Hq' _ Hs' _
         |fetched claimed d n w' pre' post _ _ _ _ _ _ Hd Hq' _ Hs' Hsp Hqp _ _ _].
    + left. rewrite Hq', Hs'. split; [done|]. by intros q ?%elem_of_nil.
    + left. rewrite Hq', Hs'. split; [done|].
      by intros q ->%list_elem_of_singleton.
    + left. rewrite Hq', Hs'. split; [done|].
      by intros q ->%list_elem_of_singleton.
    + left. rewrite Hq', Hs'. split; [done|].
      intros q [->|[->|[]%elem_of_nil]%elem_of_cons]%elem_of_cons; done.
    + right. exists (pre ++ pre'), post, fetched.
      rewrite queries_app, submits_app, Hq, Hs, Hq', Hs', <- app_assoc.
      split_and!; [done|done| |done|].
      * by intros q ->%list_elem_of_singleton.
      * intros q Hin. rewrite Hqp in Hin.
        destruct (Py.truthy _); [|by apply elem_of_nil in Hin].
        subst d. by eapply writes_are_for_claimed_ids.
Qed.

(** A run with three pending rows, read off its trace. *)
Example claim_precedes_dispatch_in_sample_run :
  let rows := [Sample.pending "row-1" "u1"; Sample.pending "row-2" "u2";
               Sample.pending "row-3" "u3"] in
  let tr := trace (main (Sample.answering "text") Sample.environ
                     (init_world (Sample.tables rows))).2 in
  queries tr
  = [SelectPending "proj.videos.urls" 5;
     UpdateProcessing "proj.videos.urls" ["row-1"; "row-2"; "row-3"];
     UpdateRow "proj.videos.urls" "text" "COMPLETED" "row-1";
     UpdateRow "proj.videos.urls" "text" "COMPLETED" "row-2";
     UpdateRow "proj.videos.urls" "text" "COMPLETED" "row-3"]
  ∧ submits tr = ["u1"; "u2"; "u3"].
Proof. vm_compute. done. Qed.

(** Three pending rows, the wait for the third call runs out: the first two
    rows end COMPLETED, the third FAILED_PROCESSING. *)
Example two_completed_one_timed_out :
  let rows := [Sample.pending "1" "u1"; Sample.pending "2" "u2";
               Sample.pending "3" "u3"] in
  let ext := {| client_fault := None;
                store_fault := λ _, None;
                worker := λ n _, {| http := Response 200 "OK"
                                              Sample.response_url "A chapter";
                                    wait := if Nat.eqb n 2
                                            then TimedOut else InTime |} |} in
  let run := main ext Sample.environ (init_world (Sample.tables rows)) in
  run.1 = Ret ("Batch processing complete. Processed 3 URLs, updated 3.", 200)
  ∧ (λ r, (row_id r, row_status r)) <$> (db run.2 !!! "proj.videos.urls")
    = [("1", "COMPLETED"); ("2", "COMPLETED"); ("3", "FAILED_PROCESSING")].
Proof. vm_compute. done. Qed.

(** ** Nothing pending *)

(** C8: when the fetch is carried out and returns no row, the orchestrator
    returns ("No pending URLs found. Job finished.", 200); the only statement
    it sends to the store is the SELECT (no claim, no result write), nothing
    is handed to the pool, and the tables are as before. *)
Theorem no_pending_work_is_a_no_op (ext : external) (cfg : config) (w : world)
    (rows : list row) :
  Py.truthy (BIGQUERY_TABLE_SOURCE cfg) = true →
  URL_PROCESSOR_SERVICE_URL cfg ≠ "" →
  store_fault ext (issued w) = None →
  db w !! table_ref cfg (BIGQUERY_TABLE_SOURCE cfg) = Some rows →
  Sql.select_pending rows BATCH_SIZE = [] →
  ∃ w' evs,
    process_batch_from_bq ext cfg w
    = (Ret ("No pending URLs found. Job finished.", 200), w')
    ∧ trace w' = trace w ++ evs
    ∧ queries evs = [fetch_query cfg]
    ∧ submits evs = []
    ∧ db w' = db w.
Proof.
  intros Hsrc Hurl Hfault Htable Hempty.
  assert (Sql.exec (fetch_query cfg) (db w) = Some ([], db w)) as Hexec.
  { unfold fetch_query, Sql.exec. rewrite Htable. simpl. by rewrite Hempty. }
  destruct (process_batch_from_bq_run ext cfg w)
    as (r & w' & evs & Hrun & Htr & Hcase).
  destruct Hcase
    as [msg w' evs [Hbad|Hbad] _ _ _
       |e w' evs _ [Hbad|(_ & Hbad & _)] _ _ _ _
       |w' evs _ _ _ Hq Hs Hdb
       |fetched e w' evs _ Hne _ Hfetch _ _ _ _ _
       |fetched claimed d n w' pre post _ Hne _ Hfetch _ _ _ _ _ _ _ _ _ _ _];
    try congruence.
  by exists w', evs.
Qed.

Lemma no_pending_work_is_a_no_op_witness :
  ∃ w' evs,
    process_batch_from_bq (Sample.answering "text") Sample.cfg
      (init_world (Sample.tables
         [{| row_id := "row-1"; row_url := "u1"; row_status := "COMPLETED";
             row_context := "done" |}]))
    = (Ret ("No pending URLs found. Job finished.", 200), w')
    ∧ trace w' = [] ++ evs
    ∧ queries evs = [SelectPending "proj.videos.urls" 5]
    ∧ submits evs = []
    ∧ db w' = Sample.tables
                [{| row_id := "row-1"; row_url := "u1";
                    row_status := "COMPLETED"; row_context := "done" |}].
Proof.
  refine (no_pending_work_is_a_no_op (Sample.answering "text") Sample.cfg
            (init_world (Sample.tables _)) _ _ _ _ _ _);
    [reflexivity|discriminate|reflexivity|vm_compute; reflexivity|reflexivity].
Defined.

(** ** The target table setting *)

Lemma update_bq_row_unconfigured (ext : external) (cfg : config)
    (row_id context status : string) (w : world) :
  Py.truthy (BIGQUERY_TABLE_TARGET cfg) = false →
  update_bq_row ext cfg row_id context status w
  = (Ret false,
     {| db := db w; issued := issued w;
        trace := trace w ++ [Log ERROR NOT_CONFIGURED.2];
        pool_logs := pool_logs w |}).
Proof. intros Htarget. unfold update_bq_row. by rewrite Htarget. Qed.

(** C9: with the source table set and the target table unset (endpoint
    address not empty, client and store working, rows pending), loading the
    module raises nothing: the batch is fetched, claimed and handed to the
    pool; every call of [update_bq_row] returns [False] and sends nothing to
    the store, so the only statements of the run are the SELECT and the
    claim, both carried out; the rows with a claimed id are left with status
    PROCESSING; and the value returned reports 0 updates with code 200. *)
Theorem unset_target_still_returns_200 (ext : external)
    (environ : gmap string string) (tables : gmap string (list row))
    (source : string) (rows : list row) :
  let cfg := load_config environ in
  let fetched := Sql.select_pending rows BATCH_SIZE in
  environ !! "BIGQUERY_TABLE_SOURCE" = Some source → source ≠ "" →
  environ !! "BIGQUERY_TABLE_TARGET" = None →
  URL_PROCESSOR_SERVICE_URL cfg ≠ "" →
  client_fault ext = None →
  store_fault ext 0 = None → store_fault ext 1 = None →
  tables !! table_ref cfg (Some source) = Some rows →
  fetched ≠ [] →
  ∃ processed w' rows',
    main ext environ (init_world tables)
    = (Ret (batch_report processed 0), w')
    ∧ (batch_report processed 0).2 = 200
    ∧ queries (trace w') = [fetch_query cfg; claim_query cfg fetched]
    ∧ done_queries (trace w') = [fetch_query cfg; claim_query cfg fetched]
    ∧ submits (trace w') = fetched.*1
    ∧ (∀ row_id context status w0,
         ∃ w1, update_bq_row ext cfg row_id context status w0 = (Ret false, w1)
               ∧ queries (trace w1) = queries (trace w0)
               ∧ db w1 = db w0)
    ∧ db w' !! table_ref cfg (Some source) = Some rows'
    ∧ (∀ r, r ∈ rows' → row_id r ∈ fetched.*2 → row_status r = "PROCESSING").
Proof.
  intros cfg fetched Hsource Hnonempty Htarget Hurl Hclient Hf0 Hf1 Htable Hne.
  assert (BIGQUERY_TABLE_SOURCE cfg = Some source) as Hsrc by done.
  assert (BIGQUERY_TABLE_TARGET cfg = None) as Htgt by done.
  assert (Py.truthy (BIGQUERY_TABLE_SOURCE cfg) = true) as Htruthy.
  { rewrite Hsrc. by destruct source. }
  assert (Sql.exec (fetch_query cfg) tables = Some (fetched, tables)) as Hfetch.
  { unfold fetch_query, Sql.exec. rewrite Hsrc, Htable. done. }
  assert (Sql.exec (claim_query cfg fetched) tables
          = Some ([], <[table_ref cfg (Some source) :=
                         Sql.mark_processing fetched.*2 <$> rows]> tables))
    as Hclaim.
  { unfold claim_query, Sql.exec. rewrite Hsrc, Htable. done. }
  destruct (main_runs ext environ (init_world tables))
    as (r & w' & evs & Hrun & Htr & Hcase).
  simpl in Htr.
  assert (load_config environ = cfg) as Hcfg by done.
  clearbody cfg fetched.
  destruct Hcase as [e w' evs Hbad _ _ _|w' evs _ Hbad _ _ _
                    |r w1 w' pre evs _ _ Hdb1 Hi1 _ Hq Hs Hbatch];
    rewrite ?Hcfg in *; [congruence..|].
  simpl in Hdb1, Hi1.
  destruct Hbatch
    as [msg w' evs [Hbad|Hbad] _ _ _
       |e w' evs _ [Hbad|(_ & Hbad & _)] _ _ _ _
       |w' evs _ _ Hbad _ _ _
       |fetched' e w' evs _ _ _ Hfetch' [Hbad|(_ & Hbad & _)] _ _ _ _
       |fetched' claimed d n w' pre' post _ _ _ Hfetch' _ Hclaim' Hd
          Hq' Hdq' Hs' Hsp Hqp Hn _ Hdb];
    rewrite ?Hdb1, ?Hi1 in *; try congruence.
  assert (fetched' = fetched) as -> by congruence.
  assert (claimed = <[table_ref cfg (Some source) :=
                        Sql.mark_processing fetched.*2 <$> rows]> tables)
    as -> by congruence.
  rewrite Htgt in Hqp, Hdb. simpl in Hqp.
  assert (n = 0) as ->.
  { rewrite Hn. by rewrite (done_queries_nil post Hqp). }
  exists (Dict.len d), w', (Sql.mark_processing fetched.*2 <$> rows).
  rewrite Htr.
  rewrite !queries_app, !done_queries_app, !submits_app, Hq, Hs, Hq', Hdq', Hs'.
  rewrite (done_queries_nil pre Hq).
  change (Query (claim_query cfg fetched) None :: post)
    with ([Query (claim_query cfg fetched) None] ++ post).
  rewrite !queries_app, !done_queries_app, !submits_app, Hqp, Hsp.
  rewrite (done_queries_nil post Hqp).
  split_and!; [done..| | |].
  - intros row_id context status w0. eexists. split.
    + apply update_bq_row_unconfigured. by rewrite Htgt.
    + simpl. rewrite queries_app. simpl. by rewrite app_nil_r.
  - rewrite Hdb by done. apply lookup_insert_eq.
  - intros r (r0 & -> & Hin)%list_elem_of_fmap Hid.
    rewrite mark_processing_id in Hid. by apply mark_processing_status.
Qed.

Lemma unset_target_still_returns_200_witness :
  let rows := [Sample.pending "row-1" "u1"; Sample.pending "row-2" "u2"] in
  ∃ processed w' rows',
    main (Sample.answering "A chapter") Sample.environ_without_target
      (init_world (Sample.tables rows))
    = (Ret (batch_report processed 0), w')
    ∧ (batch_report processed 0).2 = 200
    ∧ queries (trace w')
      = [SelectPending "proj.videos.urls" 5;
         UpdateProcessing "proj.videos.urls" ["row-1"; "row-2"]]
    ∧ db w' !! "proj.videos.urls" = Some rows'
    ∧ (∀ r, r ∈ rows' → row_id r ∈ ["row-1"; "row-2"] →
         row_status r = "PROCESSING").
Proof.
  intros rows.
  destruct (unset_target_still_returns_200 (Sample.answering "A chapter")
              Sample.environ_without_target (Sample.tables rows) "urls" rows)
    as (processed & w' & rows' & Hrun & Hcode & Hq & _ & _ & _ & Hdb & Hrows).
  - vm_compute; reflexivity.
  - discriminate.
  - vm_compute; reflexivity.
  - discriminate.
  - reflexivity.
  - reflexivity.
  - reflexivity.
  - vm_compute; reflexivity.
  - discriminate.
  - exists processed, w', rows'. by split_and!.
Defined.

(** ** The report *)

Lemma elem_of_done_queries tr q : q ∈ done_queries tr → q ∈ queries tr.
Proof.
  unfold done_queries, queries. rewrite !list_elem_of_omap.
  intros (e & Hin & He). exists e. split; [done|].
  by destruct e as [| | |q' [x|]|].
Qed.

Lemma filter_writes_all (qs : list query) :
  (∀ q, q ∈ qs → is_write q = true) → filter is_write qs = qs.
Proof.
  induction qs as [|q qs IH]; intros Hall; [done|].
  rewrite filter_cons_True.
  - f_equal. apply IH. intros q' Hin. apply Hall. by right.
  - rewrite (Hall q); [done|by left].
Qed.

Lemma exec_claim_after_fetch (cfg : config) (tables : gmap string (list row))
    (fetched : list (string * string)) :
  Sql.exec (fetch_query cfg) tables = Some (fetched, tables) →
  is_Some (Sql.exec (claim_query cfg fetched) tables).
Proof.
  unfold fetch_query, claim_query, Sql.exec.
  destruct (tables !! _); simpl; [eauto|done].
Qed.

(** C6, as stated, fails: two runs of the same batch, one whose item is
    COMPLETED and one whose item is FAILED_PROCESSING, return the same value
    and log the same lines (main thread and pool); neither the returned
    message nor the log carries a count of completed or of failed outcomes. *)
Lemma report_hides_completed_and_failed_counts :
  let rows := [Sample.pending "row-1" "https://a.example/1"] in
  let run1 := main (Sample.store_down_from 2 "A chapter") Sample.environ
                (init_world (Sample.tables rows)) in
  let run2 := main (Sample.store_down_from 2 "ERROR: model overloaded")
                Sample.environ (init_world (Sample.tables rows)) in
  run1.1 = Ret ("Batch processing complete. Processed 1 URLs, updated 0.", 200)
  ∧ run2.1 = run1.1
  ∧ log_lines (trace run2.2) = log_lines (trace run1.2)
  ∧ pool_logs run2.2 = pool_logs run1.2
  ∧ written_statuses (trace run1.2) = ["COMPLETED"]
  ∧ written_statuses (trace run2.2) = ["FAILED_PROCESSING"].
Proof. vm_compute. done. Qed.

(** C6, amended: an invocation that reaches reconciliation (the fetch
    returned rows and the claim was carried out) returns the message "Batch
    processing complete. Processed N URLs, updated S." with code 200, and its
    last log line gives the same two numbers: N is the number of outcomes of
    the dispatcher (one per distinct fetched id) and S the number of result
    writes the store carried out, so N - S writes failed. *)
Theorem report_counts_processed_and_updated (ext : external) (cfg : config)
    (w : world) (fetched : list (string * string)) :
  Py.truthy (BIGQUERY_TABLE_SOURCE cfg) = true →
  URL_PROCESSOR_SERVICE_URL cfg ≠ "" →
  store_fault ext (issued w) = None →
  Sql.exec (fetch_query cfg) (db w) = Some (fetched, db w) →
  fetched ≠ [] →
  store_fault ext (S (issued w)) = None →
  ∃ d updated w' evs,
    (dispatch ext cfg fetched w).1 = Ret d
    ∧ process_batch_from_bq ext cfg w
      = (Ret ("Batch processing complete. Processed "
                +:+ Py.str_int (Dict.len d) +:+ " URLs, updated "
                +:+ Py.str_int updated +:+ ".", 200), w')
    ∧ trace w' = trace w ++ evs
    ∧ last evs
      = Some (Log INFO ("Finished processing. " +:+ Py.str_int updated
                          +:+ " out of " +:+ Py.str_int (Dict.len d)
                          +:+ " rows updated successfully."))
    ∧ Dict.len d = length (remove_dups fetched.*2)
    ∧ updated = length (filter is_write (done_queries evs))
    ∧ (updated ≤ Dict.len d)%nat.
Proof.
  intros Hsrc Hurl Hf0 Hfetch Hne Hf1.
  destruct (exec_claim_after_fetch cfg (db w) fetched Hfetch) as [claimed0 Hc0].
  destruct (dispatch_steps ext cfg fetched w) as (wd & Hdispatch & _).
  destruct (process_batch_from_bq_run ext cfg w)
    as (r & w' & evs & Hrun & Htr & Hcase).
  destruct Hcase
    as [msg w' evs [Hbad|Hbad] _ _ _
       |e w' evs _ [Hbad|(_ & Hbad & _)] _ _ _ _
       |w' evs _ _ Hbad _ _ _
       |fetched' e w' evs _ _ _ Hfetch' Hbad _ _ _ _
       |fetched' claimed d n w' pre post _ _ _ Hfetch' _ Hclaim' Hd
          Hq Hdq Hs Hsp Hqp Hn Hlast _];
    try congruence.
  { assert (fetched' = fetched) as -> by congruence.
    destruct Hbad as [Hbad|(_ & Hbad & _)]; congruence. }
  assert (fetched' = fetched) as -> by congruence.
  exists d, n, w', (pre ++ Query (claim_query cfg fetched) None :: post).
  assert (∀ q, q ∈ queries post → is_write q = true) as Hwrites.
  { intros q. rewrite Hqp. destruct (Py.truthy (BIGQUERY_TABLE_TARGET cfg)).
    - by intros (item & -> & _)%list_elem_of_fmap.
    - by intros ?%elem_of_nil. }
  split_and!.
  - rewrite Hdispatch. simpl. by rewrite Hd.
  - exact Hrun.
  - exact Htr.
  - rewrite last_app, last_cons, Hlast. done.
  - rewrite Hd, len_record_all. by rewrite futures_from_ids.
  - change (Query (claim_query cfg fetched) None :: post)
      with ([Query (claim_query cfg fetched) None] ++ post).
    rewrite !done_queries_app, !filter_app, Hdq. simpl.
    rewrite filter_writes_all; [done|].
    intros q Hin. by apply Hwrites, elem_of_done_queries.
  - rewrite Hn. etrans; [apply length_done_queries|].
    rewrite Hqp.
    destruct (Py.truthy (BIGQUERY_TABLE_TARGET cfg)); simpl; [|lia].
    by rewrite length_fmap.
Qed.

Lemma report_counts_processed_and_updated_witness :
  let rows := [Sample.pending "row-1" "u1"; Sample.pending "row-2" "u2";
               Sample.pending "row-3" "u3"] in
  let ext := Sample.store_down_from 4 "A chapter" in
  ∃ d updated w',
    (dispatch ext Sample.cfg [("u1", "row-1"); ("u2", "row-2"); ("u3", "row-3")]
       (init_world (Sample.tables rows))).1 = Ret d
    ∧ process_batch_from_bq ext Sample.cfg (init_world (Sample.tables rows))
      = (Ret (batch_report (Dict.len d) updated), w')
    ∧ Dict.len d = 3
    ∧ (updated ≤ Dict.len d)%nat.
Proof.
  intros rows ext.
  destruct (report_counts_processed_and_updated ext Sample.cfg
              (init_world (Sample.tables rows))
              [("u1", "row-1"); ("u2", "row-2"); ("u3", "row-3")])
    as (d & updated & w' & evs & Hd & Hrun & _ & _ & Hlen & _ & Hle).
  - reflexivity.
  - discriminate.
  - reflexivity.
  - vm_compute; reflexivity.
  - discriminate.
  - reflexivity.
  - exists d, updated, w'. split_and!; [exact Hd|exact Hrun| |exact Hle].
    rewrite Hlen. vm_compute. reflexivity.
Defined.

(** The same run, evaluated: three outcomes, the third write refused. *)
Example report_of_sample_run :
  let rows := [Sample.pending "row-1" "u1"; Sample.pending "row-2" "u2";
               Sample.pending "row-3" "u3"] in
  (process_batch_from_bq (Sample.store_down_from 4 "A chapter") Sample.cfg
     (init_world (Sample.tables rows))).1
  = Ret ("Batch processing complete. Processed 3 URLs, updated 2.", 200).
Proof. vm_compute. reflexivity. Qed.

(** ** The endpoint address *)

(** X4: the check at module level and the one in [process_batch_from_bq] fire
    for an address that is set to the empty string: the module raises
    [ValueError] before any statement is sent to the store. *)
Lemma empty_endpoint_address_is_fatal (ext : external)
    (environ : gmap string string) (tables : gmap string (list row)) :
  client_fault ext = None →
  environ !! "URL_PROCESSOR_SERVICE_URL" = Some "" →
  ∃ w',
    main ext environ (init_world tables)
    = (Raise (ValueError "URL_PROCESSOR_SERVICE_URL must be set."), w')
    ∧ queries (trace w') = []
    ∧ db w' = tables.
Proof.
  intros Hclient Hurl.
  assert (URL_PROCESSOR_SERVICE_URL (load_config environ) = "") as Hcfg.
  { unfold load_config, Py.environ_get_default. simpl. by rewrite Hurl. }
  destruct (main_runs ext environ (init_world tables))
    as (r & w' & evs & Hrun & Htr & Hcase).
  simpl in Htr.
  destruct Hcase as [e w' evs Hbad _ _ _|w' evs _ _ Hq _ Hdb
                    |r w1 w' pre evs _ Hbad _ _ _ _ _ _]; [congruence| |done].
  exists w'. by rewrite Htr, Hq.
Qed.

(** An address that is not set at all is replaced by the placeholder, which
    is not empty: neither check can fire. *)
Lemma unset_endpoint_address_defaults (environ : gmap string string) :
  environ !! "URL_PROCESSOR_SERVICE_URL" = None →
  URL_PROCESSOR_SERVICE_URL (load_config environ)
  = DEFAULT_URL_PROCESSOR_SERVICE_URL
  ∧ Py.truthy (Some (URL_PROCESSOR_SERVICE_URL (load_config environ))) = true.
Proof.
  intros Hunset. unfold load_config, Py.environ_get_default. simpl.
  by rewrite Hunset.
Qed.

(** C3, the code at the failing input: with [URL_PROCESSOR_SERVICE_URL]
    absent from the environment the module does not stop at startup; the
    placeholder address is used, the SELECT, the claim and a result write are
    sent to the store, and the run returns code 200. *)
Theorem unset_endpoint_address_is_not_fatal :
  let rows := [Sample.pending "row-1" "https://a.example/1"] in
  let run := main (Sample.answering "A chapter") Sample.environ_without_url
               (init_world (Sample.tables rows)) in
  Sample.environ_without_url !! "URL_PROCESSOR_SERVICE_URL" = None
  ∧ run.1 = Ret ("Batch processing complete. Processed 1 URLs, updated 1.", 200)
  ∧ queries (trace run.2)
    = [SelectPending "proj.videos.urls" 5;
       UpdateProcessing "proj.videos.urls" ["row-1"];
       UpdateRow "proj.videos.urls" "A chapter" "COMPLETED" "row-1"].
Proof. vm_compute. done. Qed.

(** * Further properties of the job *)

(** ** Start-up and exit codes *)

(** Once the client is there and the endpoint address is not empty, loading
    the module is the call of [process_batch_from_bq]. *)
Lemma main_calls_job (ext : external) (environ : gmap string string)
    (w : world) :
  client_fault ext = None →
  URL_PROCESSOR_SERVICE_URL (load_config environ) ≠ "" →
  main ext environ w
  = process_batch_from_bq ext (load_config environ)
      {| db := db w; issued := issued w;
         trace := trace w
                    ++ [ClientInit (BIGQUERY_PROJECT (load_config environ));
                        Log INFO "BigQuery client initialized successfully."];
         pool_logs := pool_logs w |}.
Proof.
  intros Hclient Hurl. unfold main. cbv zeta.
  remember (load_config environ) as cfg eqn:Hcfg.
  unfold bind at 1. unfold try_except at 1. unfold bind at 1. unfold emit at 1.
  rewrite Hclient. unfold log at 1, emit at 1. simpl.
  destruct (URL_PROCESSOR_SERVICE_URL cfg) as [|c url]; [done|]. simpl.
  by rewrite <- app_assoc.
Qed.

Lemma unset_source_is_config_error (ext : external) (cfg : config) (w : world) :
  Py.truthy (BIGQUERY_TABLE_SOURCE cfg) = false →
  process_batch_from_bq ext cfg w
  = (Ret ("Configuration error: BIGQUERY_TABLE_SOURCE is not set.", 500),
     {| db := db w; issued := issued w;
        trace := trace w
                   ++ [Log ERROR "BIGQUERY_TABLE_SOURCE not configured. Exiting."];
        pool_logs := pool_logs w |}).
Proof. intros Hsrc. unfold process_batch_from_bq. by rewrite Hsrc. Qed.

(** X1: when the source table does not exist, the orchestrator returns
    ("Source table not found.", 404); the SELECT is the only statement sent,
    it is not carried out, nothing is handed to the pool and the tables are
    as before. *)
Theorem missing_source_table_returns_404 (ext : external) (cfg : config)
    (w : world) :
  Py.truthy (BIGQUERY_TABLE_SOURCE cfg) = true →
  URL_PROCESSOR_SERVICE_URL cfg ≠ "" →
  store_fault ext (issued w) = None →
  db w !! table_ref cfg (BIGQUERY_TABLE_SOURCE cfg) = None →
  ∃ w' evs,
    process_batch_from_bq ext cfg w = (Ret ("Source table not found.", 404), w')
    ∧ trace w' = trace w ++ evs
    ∧ queries evs = [fetch_query cfg]
    ∧ done_queries evs = []
    ∧ submits evs = []
    ∧ db w' = db w.
Proof.
  intros Hsrc Hurl Hfault Htable.
  assert (Sql.exec (fetch_query cfg) (db w) = None) as Hexec.
  { unfold fetch_query, Sql.exec. by rewrite Htable. }
  destruct (process_batch_from_bq_run ext cfg w)
    as (r & w' & evs & Hrun & Htr & Hcase).
  destruct Hcase
    as [msg w' evs [Hbad|Hbad] _ _ _
       |e w' evs _ [Hbad|(_ & _ & ->)] Hq Hdq Hs Hdb
       |w' evs _ _ Hbad _ _ _
       |fetched e w' evs _ _ _ Hbad _ _ _ _ _
       |fetched claimed d n w' pre post _ _ _ Hbad _ _ _ _ _ _ _ _ _ _ _];
    try congruence.
  by exists w', evs.
Qed.

Lemma missing_source_table_returns_404_witness :
  ∃ w' evs,
    process_batch_from_bq (Sample.answering "text") Sample.cfg (init_world ∅)
    = (Ret ("Source table not found.", 404), w')
    ∧ trace w' = [] ++ evs
    ∧ queries evs = [SelectPending "proj.videos.urls" 5]
    ∧ done_queries evs = []
    ∧ submits evs = []
    ∧ db w' = ∅.
Proof.
  refine (missing_source_table_returns_404 (Sample.answering "text")
            Sample.cfg (init_world ∅) _ _ _ _);
    [reflexivity|discriminate|reflexivity|reflexivity].
Defined.

(** X2: a fault of the store on the SELECT, or on the claim after a fetch
    that returned rows, ends the run at once: the exception is raised again
    (a [NotFound] becomes the 404 result), nothing is handed to the pool and
    no result write is sent. *)
Theorem store_fault_before_dispatch_ends_run (ext : external) (cfg : config)
    (w : world) (e : exn) :
  Py.truthy (BIGQUERY_TABLE_SOURCE cfg) = true →
  URL_PROCESSOR_SERVICE_URL cfg ≠ "" →
  store_fault ext (issued w) = Some e
  ∨ (store_fault ext (issued w) = None
     ∧ (∃ fetched, Sql.exec (fetch_query cfg) (db w) = Some (fetched, db w)
                   ∧ fetched ≠ [])
     ∧ store_fault ext (S (issued w)) = Some e) →
  ∃ w' evs,
    process_batch_from_bq ext cfg w
    = (match e with
       | NotFound _ => Ret ("Source table not found.", 404)
       | _ => Raise e
       end, w')
    ∧ trace w' = trace w ++ evs
    ∧ submits evs = []
    ∧ (∀ q, q ∈ queries evs → is_write q = false)
    ∧ db w' = db w.
Proof.
  intros Hsrc Hurl Hfault.
  destruct (process_batch_from_bq_run ext cfg w)
    as (r & w' & evs & Hrun & Htr & Hcase).
  exists w', evs.
  destruct Hcase
    as [msg w' evs [Hbad|Hbad] _ _ _
       |e' w' evs _ Href Hq _ Hs Hdb
       |w' evs _ Hf0 Hfetch _ _ _
       |fetched e' w' evs _ _ Hf0 Hfetch Href Hq _ Hs Hdb
       |fetched claimed d n w' pre post _ _ Hf0 Hfetch Hf1 _ _ _ _ _ _ _ _ _ _];
    try congruence.
  - assert (e' = e) as ->.
    { destruct Hfault as [Hfault|(Hfault & (fetched & Hfetch & _) & _)],
        Href as [Href|(Href & Hnone & _)]; congruence. }
    rewrite Hq. split_and!; [done..| |done].
    by intros q ->%list_elem_of_singleton.
  - destruct Hfault as [Hfault|(_ & (fetched & Hfetch' & Hne) & _)]; congruence.
  - assert (e' = e) as ->.
    { destruct Hfault as [Hfault|(_ & _ & Hfault)]; [congruence|].
      destruct Href as [Href|(Href & _)]; congruence. }
    rewrite Hq. split_and!; [done..| |done].
    intros q [->|[->|[]%elem_of_nil]%elem_of_cons]%elem_of_cons; done.
  - destruct Hfault as [Hfault|(_ & _ & Hfault)]; congruence.
Qed.

Lemma store_fault_before_dispatch_ends_run_witness :
  ∃ w' evs,
    process_batch_from_bq (Sample.store_down_from 1 "text") Sample.cfg
      (init_world (Sample.tables [Sample.pending "row-1" "u1"]))
    = (Raise (Exception "503 Service Unavailable"), w')
    ∧ trace w' = [] ++ evs
    ∧ submits evs = []
    ∧ (∀ q, q ∈ queries evs → is_write q = false)
    ∧ db w' = Sample.tables [Sample.pending "row-1" "u1"].
Proof.
  refine (store_fault_before_dispatch_ends_run (Sample.store_down_from 1 "text")
            Sample.cfg (init_world (Sample.tables [Sample.pending "row-1" "u1"]))
            (Exception "503 Service Unavailable") _ _ _);
    [reflexivity|discriminate|].
  right. split; [reflexivity|]. split; [|reflexivity].
  exists [("u1", "row-1")]. split; [vm_compute; reflexivity|discriminate].
Defined.

(** X3: whenever loading the module ends with a returned value, the code is
    500, 404 or 200. It is 500 exactly when the source table setting is unset
    or empty, with the message about [BIGQUERY_TABLE_SOURCE] and before any
    statement is sent: the check of the endpoint address inside
    [process_batch_from_bq] never produces a result of the module, since an
    empty address has already raised at module level. *)
Theorem exit_codes_of_the_module (ext : external)
    (environ : gmap string string) (tables : gmap string (list row))
    (msg : string) (code : nat) :
  let run := main ext environ (init_world tables) in
  let source := BIGQUERY_TABLE_SOURCE (load_config environ) in
  run.1 = Ret (msg, code) →
  (code = 500
   ∧ msg = "Configuration error: BIGQUERY_TABLE_SOURCE is not set."
   ∧ Py.truthy source = false
   ∧ queries (trace run.2) = [])
  ∨ (code = 404 ∧ msg = "Source table not found." ∧ Py.truthy source = true)
  ∨ (code = 200 ∧ Py.truthy source = true).
Proof.
  intros run source Hret. subst run source.
  destruct (main_runs ext environ (init_world tables))
    as (r & w' & evs & Hrun & Htr & Hcase).
  rewrite Hrun in Hret. simpl in Hret, Htr. rewrite Hrun. simpl.
  destruct Hcase as [e w' evs _ _ _ _|w' evs _ _ _ _ _
                    |r w1 w' pre evs Hclient Hurl _ _ _ _ _ Hbatch];
    [discriminate..|].
  destruct (Py.truthy (BIGQUERY_TABLE_SOURCE (load_config environ))) eqn:Hsrc.
  - right.
    destruct Hbatch
      as [msg' w' evs [Hbad|Hbad] _ _ _
         |e w' evs _ _ _ _ _ _
         |w' evs _ _ _ _ _ _
         |fetched e w' evs _ _ _ _ _ _ _ _ _
         |fetched claimed d n w' pre2 post _ _ _ _ _ _ _ _ _ _ _ _ _ _ _];
      try congruence.
    + left. destruct e; simpl in Hret; try discriminate.
      by injection Hret as <- <-.
    + right. by injection Hret as <- <-.
    + left. destruct e; simpl in Hret; try discriminate.
      by injection Hret as <- <-.
    + right. unfold batch_report in Hret. by injection Hret as <- <-.
  - left.
    rewrite (main_calls_job ext environ (init_world tables) Hclient Hurl) in Hrun.
    rewrite unset_source_is_config_error in Hrun by done.
    injection Hrun as Hr Hw. rewrite <- Hr in Hret.
    injection Hret as <- <-. by rewrite <- Hw.
Qed.

Lemma exit_codes_of_the_module_witness :
  let run := main (Sample.answering "text")
               (delete "BIGQUERY_TABLE_SOURCE" Sample.environ) (init_world ∅) in
  run.1 = Ret ("Configuration error: BIGQUERY_TABLE_SOURCE is not set.", 500)
  ∧ queries (trace run.2) = [].
Proof.
  intros run.
  assert (run.1
          = Ret ("Configuration error: BIGQUERY_TABLE_SOURCE is not set.", 500))
    as Hret by (vm_compute; reflexivity).
  split; [exact Hret|].
  destruct (exit_codes_of_the_module (Sample.answering "text")
              (delete "BIGQUERY_TABLE_SOURCE" Sample.environ) ∅ _ _ Hret)
    as [(_ & _ & _ & Hq)|[(Hcode & _)|(Hcode & _)]];
    [exact Hq|discriminate Hcode|discriminate Hcode].
Defined.

Lemma empty_endpoint_address_is_fatal_witness :
  ∃ w',
    main (Sample.answering "text")
      (<["URL_PROCESSOR_SERVICE_URL" := ""]> Sample.environ)
      (init_world (Sample.tables [Sample.pending "row-1" "u1"]))
    = (Raise (ValueError "URL_PROCESSOR_SERVICE_URL must be set."), w')
    ∧ queries (trace w') = []
    ∧ db w' = Sample.tables [Sample.pending "row-1" "u1"].
Proof.
  refine (empty_endpoint_address_is_fatal (Sample.answering "text")
            (<["URL_PROCESSOR_SERVICE_URL" := ""]> Sample.environ)
            (Sample.tables [Sample.pending "row-1" "u1"]) _ _);
    [reflexivity|vm_compute; reflexivity].
Defined.

(** When the client of the store cannot be created, loading the module
    logs the failure and raises the same exception again; no statement is
    sent and nothing else happens. *)
Theorem client_fault_is_fatal (ext : external) (environ : gmap string string)
    (tables : gmap string (list row)) (e : exn) :
  client_fault ext = Some e →
  main ext environ (init_world tables)
  = (Raise e,
     {| db := tables; issued := 0;
        trace := [ClientInit (environ !! "BIGQUERY_PROJECT");
                  Log ERROR ("Failed to initialize BigQuery client: "
                               +:+ exn_str e)];
        pool_logs := [] |}).
Proof.
  intros Hclient. unfold main. cbv zeta.
  unfold bind at 1. unfold try_except at 1. unfold bind at 1. unfold emit at 1.
  rewrite Hclient. by step.
Qed.

Lemma client_fault_is_fatal_witness :
  let ext := {| client_fault := Some (Exception "no credentials");
                store_fault := λ _, None;
                worker := λ _ _, {| http := RequestTimeout; wait := InTime |} |} in
  (main ext Sample.environ (init_world ∅)).1
  = Raise (Exception "no credentials").
Proof.
  intros ext.
  by rewrite (client_fault_is_fatal ext Sample.environ ∅
                (Exception "no credentials") eq_refl).
Defined.

(** ** The batch *)

Lemma length_remove_dups (l : list string) :
  (length (remove_dups l) ≤ length l)%nat.
Proof.
  induction l as [|x l IH]; simpl; [done|].
  destruct (decide_rel _ x l); simpl; lia.
Qed.

Lemma fetched_at_most_limit (cfg : config) (tables tables' : gmap string (list row))
    (fetched : list (string * string)) :
  Sql.exec (fetch_query cfg) tables = Some (fetched, tables') →
  (length fetched ≤ BATCH_SIZE)%nat.
Proof.
  unfold fetch_query, Sql.exec.
  destruct (tables !! _) as [rows|]; simpl; [|done].
  intros [= <- _]. unfold Sql.select_pending.
  rewrite length_fmap, length_take. lia.
Qed.

Lemma fetched_rows_were_pending (cfg : config)
    (tables tables' : gmap string (list row))
    (fetched : list (string * string)) (url id : string) :
  Sql.exec (fetch_query cfg) tables = Some (fetched, tables') →
  (url, id) ∈ fetched →
  ∃ rows r,
    tables !! table_ref cfg (BIGQUERY_TABLE_SOURCE cfg) = Some rows
    ∧ r ∈ rows ∧ row_url r = url ∧ row_id r = id
    ∧ row_status r = "PENDING".
Proof.
  unfold fetch_query, Sql.exec.
  destruct (tables !! _) as [rows|]; simpl; [|done].
  intros [= <- _]. unfold Sql.select_pending.
  intros (r & [= -> ->] & Hin)%list_elem_of_fmap.
  apply elem_of_take in Hin as (i & Hin%list_elem_of_lookup_2 & _).
  apply list_elem_of_filter in Hin as [Hpending Hin].
  exists rows, r. split_and!; [done..|].
  unfold Sql.is_pending in Hpending. by apply bool_decide_unpack in Hpending.
Qed.

(** X5: in every run of the module at most [BATCH_SIZE] = 5 calls are handed
    to the pool (never more than the pool has workers), at most 5 result
    writes are sent, and at most 7 statements reach the store. *)
Theorem run_is_bounded_by_batch_size (ext : external)
    (environ : gmap string string) (tables : gmap string (list row)) :
  let tr := trace (main ext environ (init_world tables)).2 in
  (length (submits tr) ≤ BATCH_SIZE)%nat
  ∧ (length (submits tr) ≤ MAX_CONCURRENT_TASKS_PER_INSTANCE)%nat
  ∧ (length (filter is_write (queries tr)) ≤ BATCH_SIZE)%nat
  ∧ (length (queries tr) ≤ 2 + BATCH_SIZE)%nat.
Proof.
  intros tr. subst tr.
  destruct (main_runs ext environ (init_world tables))
    as (r & w' & evs & -> & Htr & Hrun).
  simpl in Htr. simpl. rewrite Htr. clear Htr.
  assert (∀ evs0 : list event,
             submits evs0 = [] →
             (length (queries evs0) ≤ 2)%nat →
             (∀ q, q ∈ queries evs0 → is_write q = false) →
             (length (submits evs0) ≤ 5)%nat
             ∧ (length (submits evs0) ≤ 5)%nat
             ∧ (length (filter is_write (queries evs0)) ≤ 5)%nat
             ∧ (length (queries evs0) ≤ 2 + 5)%nat) as Hsmall.
  { intros evs0 Hs Hlen Hnw. rewrite Hs. simpl.
    pose proof (length_filter is_write (queries evs0)). lia. }
  destruct Hrun as [e w' evs _ Hq Hs _|w' evs _ _ Hq Hs _
                   |r w1 w' pre evs _ _ Hdb1 _ _ Hq Hs Hbatch].
  - apply Hsmall; rewrite ?Hq; simpl; [done|lia|by intros q ?%elem_of_nil].
  - apply Hsmall; rewrite ?Hq; simpl; [done|lia|by intros q ?%elem_of_nil].
  - destruct Hbatch
      as [msg w' evs _ Hq' Hs' _
         |e w' evs _ _ Hq' _ Hs' _
         |w' evs _ _ _ Hq' Hs' _
         |fetched e w' evs _ _ _ _ _ Hq' _ Hs' _
         |fetched claimed d n w' pre' post _ _ _ Hfetch _ _ Hd Hq' _ Hs' Hsp Hqp _ _ _].
    1-4: apply Hsmall; rewrite ?queries_app, ?submits_app, ?Hq, ?Hs, ?Hq', ?Hs';
      simpl; [done|lia|].
    + by intros q ?%elem_of_nil.
    + by intros q ->%list_elem_of_singleton.
    + by intros q ->%list_elem_of_singleton.
    + intros q [->|[->|[]%elem_of_nil]%elem_of_cons]%elem_of_cons; done.
    + apply fetched_at_most_limit in Hfetch.
      assert (length (queries post) ≤ length fetched)%nat as Hwrites.
      { rewrite Hqp. destruct (Py.truthy _); simpl; [|lia].
        rewrite length_fmap, Hd.
        change (length (record_all ?f Dict.empty))
          with (Dict.len (record_all f Dict.empty)).
        rewrite len_record_all, futures_from_ids.
        etrans; [apply length_remove_dups|]. by rewrite length_fmap. }
      change (Query (claim_query (load_config environ) fetched) None :: post)
        with ([Query (claim_query (load_config environ) fetched) None] ++ post).
      rewrite !queries_app, !submits_app, !filter_app, !length_app.
      rewrite Hq, Hs, Hq', Hs', Hsp, length_fmap. simpl.
      pose proof (length_filter is_write (queries post)).
      unfold MAX_CONCURRENT_TASKS_PER_INSTANCE, BATCH_SIZE in *. lia.
Qed.

(** X6: only rows that the source table holds with status PENDING are
    processed: every url handed to the pool is the url of such a row. *)
Theorem only_pending_rows_are_submitted (ext : external)
    (environ : gmap string string) (tables : gmap string (list row))
    (url : string) :
  let cfg := load_config environ in
  url ∈ submits (trace (main ext environ (init_world tables)).2) →
  ∃ rows r,
    tables !! table_ref cfg (BIGQUERY_TABLE_SOURCE cfg) = Some rows
    ∧ r ∈ rows ∧ row_url r = url ∧ row_status r = "PENDING".
Proof.
  intros cfg. subst cfg.
  destruct (main_runs ext environ (init_world tables))
    as (r & w' & evs & -> & Htr & Hrun).
  simpl in Htr. simpl. rewrite Htr. clear Htr.
  destruct Hrun as [e w' evs _ _ Hs _|w' evs _ _ _ Hs _
                   |r w1 w' pre evs _ _ Hdb1 _ _ _ Hs Hbatch].
  1-2: rewrite Hs; by intros ?%elem_of_nil.
  rewrite submits_app, Hs. simpl.
  destruct Hbatch
    as [msg w' evs _ _ Hs' _
       |e w' evs _ _ _ _ Hs' _
       |w' evs _ _ _ _ Hs' _
       |fetched e w' evs _ _ _ _ _ _ _ Hs' _
       |fetched claimed d n w' pre' post _ _ _ Hfetch _ _ _ _ _ Hs' Hsp _ _ _ _].
  1-4: rewrite Hs'; by intros ?%elem_of_nil.
  change (Query (claim_query (load_config environ) fetched) None :: post)
    with ([Query (claim_query (load_config environ) fetched) None] ++ post).
  rewrite !submits_app, Hs', Hsp. simpl.
  intros ([url' row_id] & -> & Hin)%list_elem_of_fmap.
  rewrite Hdb1 in Hfetch. simpl in Hfetch.
  destruct (fetched_rows_were_pending _ _ _ _ _ _ Hfetch Hin)
    as (rows & r0 & Htable & Hr0 & Hu & _ & Hp).
  by exists rows, r0.
Qed.

Lemma only_pending_rows_are_submitted_witness :
  let rows := [Sample.pending "row-1" "u1";
               {| row_id := "row-2"; row_url := "u2";
                  row_status := "COMPLETED"; row_context := "done" |}] in
  ∃ rows' r,
    Sample.tables rows !! "proj.videos.urls" = Some rows'
    ∧ r ∈ rows' ∧ row_url r = "u1" ∧ row_status r = "PENDING".
Proof.
  intros rows.
  refine (only_pending_rows_are_submitted (Sample.answering "text")
            Sample.environ (Sample.tables rows) "u1" _).
  vm_compute. by left.
Defined.

(** ** Outcomes *)

Lemma elem_of_dict_set {V} (d : Dict.t V) (k : string) (v : V)
    (item : string * V) :
  item ∈ Dict.set d k v → item = (k, v) ∨ item ∈ d.
Proof.
  induction d as [|[k0 v0] d IH]; simpl.
  - intros ->%list_elem_of_singleton. by left.
  - case_decide.
    + intros [->|Hin]%elem_of_cons; [by left|right; by right].
    + intros [->|Hin]%elem_of_cons; [right; by left|].
      destruct (IH Hin) as [->|Hd]; [by left|right; by right].
Qed.

Lemma record_all_values (P : outcome → Prop)
    (futures : list (string * future)) (d : Dict.t outcome) :
  (∀ row_id fut, P (classify row_id fut)) →
  (∀ item, item ∈ d → P item.2) →
  ∀ item, item ∈ record_all futures d → P item.2.
Proof.
  intros Hclassify. revert d.
  induction futures as [|[row_id fut] futures IH]; intros d Hd; [done|].
  simpl. apply IH. intros item [->|Hin]%elem_of_dict_set; [apply Hclassify|].
  by apply Hd.
Qed.

Lemma classify_marks_failures (row_id : string) (fut : future) :
  let o := classify row_id fut in
  (status o = "COMPLETED" ∧ Py.startswith (context o) "ERROR:" = false)
  ∨ (status o = "FAILED_PROCESSING"
     ∧ Py.startswith (context o) "ERROR:" = true).
Proof.
  assert (∀ rest, Py.startswith ("ERROR:" +:+ rest) "ERROR:" = true) as Hmark
    by (intros rest; apply PyFacts.startswith_app).
  unfold classify. destruct (fut_wait fut) as [| |e]; simpl.
  - destruct (Py.startswith (fut_value fut) "ERROR:") eqn:Hs; [right|left]; done.
  - right. split; [done|]. exact (Hmark _).
  - right. destruct e; (split; [done|]); exact (Hmark _).
Qed.

(** X7: every outcome of the dispatcher is COMPLETED or FAILED_PROCESSING,
    and its status can be read off its context: it is FAILED_PROCESSING
    exactly when the context starts with "ERROR:" (also for the contexts the
    dispatcher makes up itself for a time-out or a fault). *)
Theorem outcomes_are_marked_by_prefix (ext : external) (cfg : config)
    (items : list (string * string)) (w : world) :
  ∃ d w',
    dispatch ext cfg items w = (Ret d, w')
    ∧ ∀ row_id o, (row_id, o) ∈ Dict.items d →
        (status o = "COMPLETED"
         ∧ Py.startswith (context o) "ERROR:" = false)
        ∨ (status o = "FAILED_PROCESSING"
           ∧ Py.startswith (context o) "ERROR:" = true).
Proof.
  destruct (dispatch_steps ext cfg items w) as (w' & Hrun & _).
  eexists _, w'. split; [exact Hrun|].
  intros row_id o Hin.
  refine (record_all_values
            (λ o, (status o = "COMPLETED"
                   ∧ Py.startswith (context o) "ERROR:" = false)
                  ∨ (status o = "FAILED_PROCESSING"
                     ∧ Py.startswith (context o) "ERROR:" = true))
            (futures_from ext cfg (length (pool_logs w)) items) Dict.empty
            classify_marks_failures _ (row_id, o) Hin).
  by intros item ?%elem_of_nil.
Qed.

(** ** Result writes *)

(** The tables after a call of [update_bq_row]. *)
Lemma update_bq_row_tables (ext : external) (cfg : config)
    (id context status : string) (w : world) :
  ∃ ok w',
    update_bq_row ext cfg id context status w = (Ret ok, w')
    ∧ if ok then
        ∃ rows,
          db w !! table_ref cfg (BIGQUERY_TABLE_TARGET cfg) = Some rows
          ∧ db w' = <[table_ref cfg (BIGQUERY_TABLE_TARGET cfg) :=
                        Sql.set_result context status id <$> rows]> (db w)
      else db w' = db w.
Proof.
  unfold update_bq_row.
  destruct (Py.truthy (BIGQUERY_TABLE_TARGET cfg)); simpl.
  - unfold try_except. unfold bind at 1.
    destruct (bq_query_step ext
                (UpdateRow (table_ref cfg (BIGQUERY_TABLE_TARGET cfg))
                   context status id) w)
      as [(rows0 & db' & _ & Hexec & ->)|(e & _ & ->)]; step.
    + exists true. eexists. split; [done|]. simpl.
      unfold Sql.exec in Hexec.
      destruct (db w !! table_ref cfg (BIGQUERY_TABLE_TARGET cfg))
        as [rows|]; simpl in Hexec; [|done].
      injection Hexec as _ <-. by exists rows.
    + exists false. eexists. by split.
  - step. exists false. eexists. by split.
Qed.

(** X8: [update_bq_row] returns [True] only when the store carried out the
    UPDATE; the target table then holds the same rows, those with the given id
    carrying the new context and status and all others as they were, and no
    other table has changed. When it returns [False] no table has changed. *)
Theorem update_bq_row_effect (ext : external) (cfg : config)
    (id context status : string) (w : world) :
  let target := table_ref cfg (BIGQUERY_TABLE_TARGET cfg) in
  ∃ ok w',
    update_bq_row ext cfg id context status w = (Ret ok, w')
    ∧ if ok then
        Py.truthy (BIGQUERY_TABLE_TARGET cfg) = true
        ∧ store_fault ext (issued w) = None
        ∧ ∃ rows,
            db w !! target = Some rows
            ∧ db w' = <[target := Sql.set_result context status id <$> rows]> (db w)
            ∧ ∀ i r, rows !! i = Some r →
                (Sql.set_result context status id <$> rows) !! i
                = Some (if bool_decide (row_id r = id)
                        then {| row_id := row_id r; row_url := row_url r;
                                row_status := status;
                                row_context := context |}
                        else r)
      else db w' = db w.
Proof.
  intros target. unfold update_bq_row.
  destruct (Py.truthy (BIGQUERY_TABLE_TARGET cfg)) eqn:Htarget; simpl.
  - unfold try_except. unfold bind at 1.
    destruct (bq_query_step ext
                (UpdateRow (table_ref cfg (BIGQUERY_TABLE_TARGET cfg))
                   context status id) w)
      as [(rows0 & db' & Hfault & Hexec & ->)|(e & _ & ->)]; step.
    + exists true. eexists. split; [done|]. simpl.
      split; [done|]. split; [done|].
      unfold Sql.exec in Hexec. fold target in Hexec.
      destruct (db w !! target) as [rows|] eqn:Hrows; simpl in Hexec; [|done].
      injection Hexec as _ <-.
      exists rows. split_and!; [done..|].
      intros i r Hr. by rewrite list_lookup_fmap, Hr.
    + exists false. eexists. split; [done|]. done.
  - step. exists false. eexists. split; done.
Qed.

(** A write into a table with two rows of the same id and one other row. *)
Example update_bq_row_changes_rows_of_that_id :
  let rows := [Sample.pending "row-1" "u1"; Sample.pending "row-2" "u2";
               Sample.pending "row-1" "u3"] in
  let run := update_bq_row (Sample.answering "text") Sample.cfg "row-1"
               "A chapter" "COMPLETED" (init_world (Sample.tables rows)) in
  run.1 = Ret true
  ∧ db run.2 !! "proj.videos.urls"
    = Some [{| row_id := "row-1"; row_url := "u1";
               row_status := "COMPLETED"; row_context := "A chapter" |};
            Sample.pending "row-2" "u2";
            {| row_id := "row-1"; row_url := "u3";
               row_status := "COMPLETED"; row_context := "A chapter" |}].
Proof. vm_compute. done. Qed.

(** ** The tables after a run *)

(** A run that reaches step 4 leaves the tables that the write-back loop
    leaves, started on the tables the claim produced. *)
Lemma complete_run_tables (ext : external) (cfg : config) (w : world)
    (fetched : list (string * string)) :
  Py.truthy (BIGQUERY_TABLE_SOURCE cfg) = true →
  URL_PROCESSOR_SERVICE_URL cfg ≠ "" →
  store_fault ext (issued w) = None →
  Sql.exec (fetch_query cfg) (db w) = Some (fetched, db w) →
  fetched ≠ [] →
  store_fault ext (S (issued w)) = None →
  ∃ claimed w3,
    Sql.exec (claim_query cfg fetched) (db w) = Some ([], claimed)
    ∧ db w3 = claimed
    ∧ issued w3 = S (S (issued w))
    ∧ db (process_batch_from_bq ext cfg w).2
      = db (write_back ext cfg
              (record_all (futures_from ext cfg (length (pool_logs w)) fetched)
                 Dict.empty) w3).2.
Proof.
  intros Hsrc Hurl Hf0 Hfetch Hne Hf1.
  unfold process_batch_from_bq. rewrite Hsrc. simpl.
  destruct (URL_PROCESSOR_SERVICE_URL cfg) as [|c url]; [done|]. simpl.
  unfold bind at 1. unfold emit at 1. unfold try_except.
  unfold bind at 1. unfold log at 1, emit at 1. unfold bind at 1.
  match goal with
  | |- context [bq_query ext ?q ?w1] =>
      destruct (bq_query_step ext q w1)
        as [(fetched0 & db1 & _ & Hfetch0 & ->)|(e & He & ->)]
  end; simpl in *.
  2:{ destruct He as [He|(_ & He & _)]; unfold fetch_query in *; congruence. }
  assert (fetched0 = fetched ∧ db1 = db w) as [-> ->]
    by (unfold fetch_query in *; split; congruence).
  destruct fetched as [|item fetched'] eqn:Hfetched; [done|].
  rewrite <- Hfetched in *. clear Hfetched item fetched'.
  unfold bind at 1. unfold log at 1, emit at 1. unfold bind at 1.
  match goal with
  | |- context [bq_query ext ?q ?w2] =>
      destruct (bq_query_step ext q w2)
        as [(rows & claimed & _ & Hclaim & ->)|(e & He & ->)]
  end; simpl in *.
  2:{ destruct (exec_claim_after_fetch cfg (db w) fetched) as [x Hx]; [done|].
      destruct He as [He|(_ & He & _)]; unfold claim_query in *; congruence. }
  pose proof (exec_claim_rows cfg _ _ _ _ Hclaim) as ->.
  exists claimed.
  unfold bind at 1. unfold log at 1, emit at 1. unfold bind at 1.
  match goal with
  | |- context [dispatch ext cfg fetched ?w3] =>
      destruct (dispatch_steps ext cfg fetched w3)
        as (w4 & -> & Hdb4 & Hi4 & _)
  end; simpl in *.
  set (d := record_all _ _) in *.
  unfold bind at 1. unfold log at 1, emit at 1. unfold bind at 1.
  match goal with
  | |- context [write_back ext cfg d ?w5] =>
      exists w5;
      destruct (write_back ext cfg d w5) as [[n|e] w6] eqn:Hwb
  end; simpl.
  - split_and!; [done..|]. by step.
  - destruct (write_back_spec ext cfg d
                {| db := db w4; issued := issued w4;
                   trace := trace w4 ++
                     [Log INFO ("Writing " +:+ Py.str_int (Dict.len d)
                                  +:+ " results back to BigQuery...")];
                   pool_logs := pool_logs w4 |})
      as (n & w7 & evs & Hwb' & _).
    rewrite Hwb in Hwb'. done.
Qed.

(** What a property of the tables needs to survive the write-back loop: it
    survives every single result write of the loop. *)
Lemma write_back_keeps (ext : external) (cfg : config)
    (P : gmap string (list row) → Prop) (d : Dict.t outcome) (w : world) :
  (∀ tables rows item,
      item ∈ d → P tables →
      tables !! table_ref cfg (BIGQUERY_TABLE_TARGET cfg) = Some rows →
      P (<[table_ref cfg (BIGQUERY_TABLE_TARGET cfg) :=
             Sql.set_result (context item.2) (status item.2) item.1 <$> rows]>
           tables)) →
  P (db w) → P (db (write_back ext cfg d w).2).
Proof.
  unfold write_back, Dict.items. generalize 0.
  revert w. induction d as [|[row_id data] d IH]; intros w acc Hstep HP; [done|].
  rewrite for_in_cons. unfold bind at 1.
  destruct (update_bq_row_tables ext cfg row_id (context data) (status data) w)
    as (ok & w1 & -> & Heffect).
  assert (P (db w1)) as HP1.
  { destruct ok.
    - destruct Heffect as (rows & Hrows & ->).
      apply (Hstep (db w) rows (row_id, data)); [by left|done..].
    - by rewrite Heffect. }
  assert (∀ acc1, P (db (for_in d
            (λ '(row_id, data) successful_updates,
               let* ok := update_bq_row ext cfg row_id (context data) (status data) in
               if ok then ret (S successful_updates) else ret successful_updates)
            acc1 w1).2)) as Hrest.
  { intros acc1. apply IH; [|done].
    intros tables rows item Hin. apply Hstep. by right. }
  destruct ok; unfold ret at 1; apply Hrest.
Qed.

Lemma select_pending_sound (rows : list row) (limit : nat) (url id : string) :
  (url, id) ∈ Sql.select_pending rows limit →
  ∃ r, r ∈ rows ∧ row_url r = url ∧ row_id r = id ∧ row_status r = "PENDING".
Proof.
  unfold Sql.select_pending.
  intros (r & [= -> ->] & Hin)%list_elem_of_fmap.
  apply elem_of_take in Hin as (i & Hin%list_elem_of_lookup_2 & _).
  apply list_elem_of_filter in Hin as [Hpending Hin].
  exists r. split_and!; [done..|].
  unfold Sql.is_pending in Hpending. by apply bool_decide_unpack in Hpending.
Qed.

Lemma set_result_id (context status id : string) (r : row) :
  row_id (Sql.set_result context status id r) = row_id r.
Proof. unfold Sql.set_result. by case_bool_decide. Qed.

Lemma set_result_url (context status id : string) (r : row) :
  row_url (Sql.set_result context status id r) = row_url r.
Proof. unfold Sql.set_result. by case_bool_decide. Qed.

Lemma set_result_status (context status id : string) (r : row) :
  row_status (Sql.set_result context status id r)
  = if bool_decide (row_id r = id) then status else row_status r.
Proof. unfold Sql.set_result. by case_bool_decide. Qed.

Lemma outcome_status_is_not_pending (futures : list (string * future))
    (item : string * outcome) :
  item ∈ record_all futures Dict.empty → status item.2 ≠ "PENDING".
Proof.
  intros Hin.
  destruct (record_all_values
              (λ o, (status o = "COMPLETED"
                     ∧ Py.startswith (context o) "ERROR:" = false)
                    ∨ (status o = "FAILED_PROCESSING"
                       ∧ Py.startswith (context o) "ERROR:" = true))
              futures Dict.empty classify_marks_failures
              ltac:(by intros ? ?%elem_of_nil) item Hin)
    as [[-> _]|[-> _]]; discriminate.
Qed.

(** X9: once the claim of a run has been carried out, no row with a claimed
    id is PENDING in the source table when the run ends, whatever the calls
    return, whichever result writes fail and whichever table the results go
    to: a later SELECT of pending rows returns none of these ids, so a later
    run does not process them again. *)
Theorem claimed_ids_are_not_fetched_again (ext : external) (cfg : config)
    (w : world) (rows : list row) (limit : nat) :
  let source := table_ref cfg (BIGQUERY_TABLE_SOURCE cfg) in
  let fetched := Sql.select_pending rows BATCH_SIZE in
  Py.truthy (BIGQUERY_TABLE_SOURCE cfg) = true →
  URL_PROCESSOR_SERVICE_URL cfg ≠ "" →
  db w !! source = Some rows →
  fetched ≠ [] →
  store_fault ext (issued w) = None →
  store_fault ext (S (issued w)) = None →
  ∃ rows',
    db (process_batch_from_bq ext cfg w).2 !! source = Some rows'
    ∧ ∀ url id, (url, id) ∈ Sql.select_pending rows' limit → id ∉ fetched.*2.
Proof.
  intros source fetched Hsrc Hurl Hrows Hne Hf0 Hf1.
  assert (Sql.exec (fetch_query cfg) (db w) = Some (fetched, db w)) as Hfetch.
  { unfold fetch_query, Sql.exec. fold source. by rewrite Hrows. }
  destruct (complete_run_tables ext cfg w fetched Hsrc Hurl Hf0 Hfetch Hne Hf1)
    as (claimed & w3 & Hclaim & Hdb3 & _ & ->).
  assert (claimed = <[source := Sql.mark_processing fetched.*2 <$> rows]> (db w))
    as Hclaimed.
  { unfold claim_query, Sql.exec in Hclaim. fold source in Hclaim.
    rewrite Hrows in Hclaim. simpl in Hclaim. congruence. }
  set (P := λ tables : gmap string (list row),
         ∃ rows', tables !! source = Some rows'
                  ∧ ∀ r, r ∈ rows' → row_id r ∈ fetched.*2 →
                         row_status r ≠ "PENDING").
  assert (P (db (write_back ext cfg
                   (record_all
                      (futures_from ext cfg (length (pool_logs w)) fetched)
                      Dict.empty) w3).2)) as (rows' & Hrows' & Hnot).
  { apply write_back_keeps.
    - intros tables rowsT item Hitem (rows1 & Hrows1 & Hnot) HrowsT.
      destruct (decide (table_ref cfg (BIGQUERY_TABLE_TARGET cfg) = source))
        as [Heq|Hneq].
      + rewrite Heq in *. assert (rowsT = rows1) as -> by congruence.
        eexists. split; [apply lookup_insert_eq|].
        intros r (r1 & -> & Hin)%list_elem_of_fmap Hid.
        rewrite set_result_id in Hid. rewrite set_result_status.
        case_bool_decide; [|by apply Hnot].
        by eapply outcome_status_is_not_pending.
      + exists rows1. split; [|done]. by rewrite lookup_insert_ne.
    - rewrite Hdb3, Hclaimed. eexists. split; [apply lookup_insert_eq|].
      intros r (r0 & -> & Hin)%list_elem_of_fmap Hid.
      rewrite mark_processing_id in Hid.
      by rewrite mark_processing_status. }
  exists rows'. split; [done|].
  intros url id (r & Hin & _ & <- & Hpending)%select_pending_sound Hid.
  by apply (Hnot r Hin Hid).
Qed.

Lemma claimed_ids_are_not_fetched_again_witness :
  let rows := [Sample.pending "row-1" "u1"; Sample.pending "row-2" "u2"] in
  ∃ rows',
    db (process_batch_from_bq (Sample.store_down_from 2 "text") Sample.cfg
          (init_world (Sample.tables rows))).2 !! "proj.videos.urls"
    = Some rows'
    ∧ ∀ url id, (url, id) ∈ Sql.select_pending rows' 5 →
                id ∉ ["row-1"; "row-2"].
Proof.
  intros rows.
  refine (claimed_ids_are_not_fetched_again (Sample.store_down_from 2 "text")
            Sample.cfg (init_world (Sample.tables rows)) rows 5 _ _ _ _ _ _);
    [reflexivity|discriminate|vm_compute; reflexivity|discriminate
    |reflexivity|reflexivity].
Defined.

(** X10: when the target table is another table than the source table, a run
    that reaches step 4 leaves the source table exactly as the claim left
    it: the results go to the target table only, and every row with a claimed
    id still has status PROCESSING in the source when the run ends. *)
Theorem separate_target_leaves_source_processing (ext : external)
    (cfg : config) (w : world) (rows : list row) :
  let source := table_ref cfg (BIGQUERY_TABLE_SOURCE cfg) in
  let fetched := Sql.select_pending rows BATCH_SIZE in
  Py.truthy (BIGQUERY_TABLE_SOURCE cfg) = true →
  URL_PROCESSOR_SERVICE_URL cfg ≠ "" →
  table_ref cfg (BIGQUERY_TABLE_TARGET cfg) ≠ source →
  db w !! source = Some rows →
  fetched ≠ [] →
  store_fault ext (issued w) = None →
  store_fault ext (S (issued w)) = None →
  db (process_batch_from_bq ext cfg w).2 !! source
  = Some (Sql.mark_processing fetched.*2 <$> rows)
  ∧ ∀ r, r ∈ Sql.mark_processing fetched.*2 <$> rows →
         row_id r ∈ fetched.*2 → row_status r = "PROCESSING".
Proof.
  intros source fetched Hsrc Hurl Hother Hrows Hne Hf0 Hf1.
  assert (Sql.exec (fetch_query cfg) (db w) = Some (fetched, db w)) as Hfetch.
  { unfold fetch_query, Sql.exec. fold source. by rewrite Hrows. }
  destruct (complete_run_tables ext cfg w fetched Hsrc Hurl Hf0 Hfetch Hne Hf1)
    as (claimed & w3 & Hclaim & Hdb3 & _ & ->).
  assert (claimed = <[source := Sql.mark_processing fetched.*2 <$> rows]> (db w))
    as Hclaimed.
  { unfold claim_query, Sql.exec in Hclaim. fold source in Hclaim.
    rewrite Hrows in Hclaim. simpl in Hclaim. congruence. }
  split.
  - apply (write_back_keeps ext cfg
             (λ tables, tables !! source
                        = Some (Sql.mark_processing fetched.*2 <$> rows))).
    + intros tables rowsT item _ Hkept _. by rewrite lookup_insert_ne.
    + rewrite Hdb3, Hclaimed. apply lookup_insert_eq.
  - intros r (r0 & -> & Hin)%list_elem_of_fmap Hid.
    rewrite mark_processing_id in Hid. by apply mark_processing_status.
Qed.

Lemma separate_target_leaves_source_processing_witness :
  let rows := [Sample.pending "row-1" "u1"] in
  let environ := <["BIGQUERY_TABLE_TARGET" := "results"]> Sample.environ in
  let tables := <["proj.videos.results" := rows]> (Sample.tables rows) in
  db (process_batch_from_bq (Sample.answering "A chapter")
        (load_config environ) (init_world tables)).2 !! "proj.videos.urls"
  = Some [{| row_id := "row-1"; row_url := "u1"; row_status := "PROCESSING";
             row_context := "" |}].
Proof.
  intros rows environ tables.
  refine (proj1 (separate_target_leaves_source_processing
                   (Sample.answering "A chapter") (load_config environ)
                   (init_world tables) rows _ _ _ _ _ _ _));
    [reflexivity|discriminate|discriminate|vm_compute; reflexivity
    |discriminate|reflexivity|reflexivity].
Defined.

(** A result write on a working store, with the target table there, is
    carried out. *)
Lemma update_bq_row_succeeds (ext : external) (cfg : config)
    (id context status : string) (w : world) (rows : list row) :
  Py.truthy (BIGQUERY_TABLE_TARGET cfg) = true →
  store_fault ext (issued w) = None →
  db w !! table_ref cfg (BIGQUERY_TABLE_TARGET cfg) = Some rows →
  ∃ w',
    update_bq_row ext cfg id context status w = (Ret true, w')
    ∧ issued w' = S (issued w)
    ∧ db w' = <[table_ref cfg (BIGQUERY_TABLE_TARGET cfg) :=
                  Sql.set_result context status id <$> rows]> (db w).
Proof.
  intros Htarget Hfault Hrows. unfold update_bq_row. rewrite Htarget. simpl.
  unfold try_except. unfold bind at 1.
  destruct (bq_query_step ext
              (UpdateRow (table_ref cfg (BIGQUERY_TABLE_TARGET cfg))
                 context status id) w)
    as [(rows0 & db' & _ & Hexec & ->)|(e & He & ->)]; step.
  - eexists. split; [done|]. simpl. split; [done|].
    unfold Sql.exec in Hexec. rewrite Hrows in Hexec. simpl in Hexec.
    congruence.
  - destruct He as [He|(_ & He & _)]; [congruence|].
    unfold Sql.exec in He. by rewrite Hrows in He.
Qed.

Lemma write_back_on_working_store (ext : external) (cfg : config)
    (d : Dict.t outcome) (w : world) (rows : list row) :
  Py.truthy (BIGQUERY_TABLE_TARGET cfg) = true →
  (∀ n, store_fault ext n = None) →
  db w !! table_ref cfg (BIGQUERY_TABLE_TARGET cfg) = Some rows →
  db (write_back ext cfg d w).2 !! table_ref cfg (BIGQUERY_TABLE_TARGET cfg)
  = Some (foldl (λ rows item,
                   Sql.set_result (context item.2) (status item.2) item.1
                     <$> rows) rows d).
Proof.
  intros Htarget Hfault. unfold write_back, Dict.items. generalize 0.
  revert w rows. induction d as [|[row_id data] d IH]; intros w rows acc Hrows;
    [done|].
  rewrite for_in_cons. unfold bind at 1.
  destruct (update_bq_row_succeeds ext cfg row_id (context data) (status data)
              w rows Htarget (Hfault _) Hrows) as (w1 & -> & _ & Hdb1).
  unfold ret at 1. simpl. apply IH. rewrite Hdb1. apply lookup_insert_eq.
Qed.

Lemma foldl_fmap_rows {A} (f : A → row → row) (items : list A)
    (rows : list row) :
  foldl (λ rows item, f item <$> rows) rows items
  = (λ r, foldl (λ r item, f item r) r items) <$> rows.
Proof.
  revert rows. induction items as [|item items IH]; intros rows; simpl.
  - by rewrite list_fmap_id.
  - rewrite IH, <- list_fmap_compose. done.
Qed.

(** One row after all the result writes of a dict, one per key. *)
Lemma row_after_writes (d : Dict.t outcome) (r : row) :
  NoDup (Dict.keys d) →
  let r' := foldl (λ r item,
                     Sql.set_result (context item.2) (status item.2) item.1 r)
              r d in
  row_id r' = row_id r ∧ row_url r' = row_url r
  ∧ match Dict.get d (row_id r) with
    | Some o => row_status r' = status o ∧ row_context r' = context o
    | None => r' = r
    end.
Proof.
  revert r. induction d as [|[k o] d IH]; intros r Hkeys; simpl; [done|].
  unfold Dict.keys in Hkeys. simpl in Hkeys.
  apply NoDup_cons in Hkeys as [Hfresh Hkeys].
  destruct (IH (Sql.set_result (context o) (status o) k r) Hkeys)
    as (Hid & Hurl & Hentry).
  rewrite set_result_id in Hid, Hentry. rewrite set_result_url in Hurl.
  split; [done|]. split; [done|].
  case_decide as Hk.
  - subst k. apply DictFacts.get_None in Hfresh. rewrite Hfresh in Hentry.
    rewrite Hentry. unfold Sql.set_result.
    by rewrite bool_decide_eq_true_2.
  - destruct (Dict.get d (row_id r)) as [o'|]; [done|].
    rewrite Hentry. unfold Sql.set_result.
    rewrite bool_decide_eq_false_2; [done|]. congruence.
Qed.

(** X11: when the results go to the source table itself and the store never
    faults, a run that reaches step 4 leaves every row of the table in place
    with its id and url; a row whose id the dispatcher has an outcome for
    carries that outcome's status and context, and every other row is as it
    was before the run. *)
Theorem results_reach_the_rows (ext : external) (cfg : config) (w : world)
    (rows : list row) :
  let source := table_ref cfg (BIGQUERY_TABLE_SOURCE cfg) in
  let fetched := Sql.select_pending rows BATCH_SIZE in
  Py.truthy (BIGQUERY_TABLE_SOURCE cfg) = true →
  URL_PROCESSOR_SERVICE_URL cfg ≠ "" →
  BIGQUERY_TABLE_TARGET cfg = BIGQUERY_TABLE_SOURCE cfg →
  (∀ n, store_fault ext n = None) →
  db w !! source = Some rows →
  fetched ≠ [] →
  ∃ d rows',
    (dispatch ext cfg fetched w).1 = Ret d
    ∧ db (process_batch_from_bq ext cfg w).2 !! source = Some rows'
    ∧ length rows' = length rows
    ∧ ∀ i r, rows !! i = Some r →
        ∃ r', rows' !! i = Some r'
              ∧ row_id r' = row_id r ∧ row_url r' = row_url r
              ∧ match Dict.get d (row_id r) with
                | Some o => row_status r' = status o
                            ∧ row_context r' = context o
                | None => r' = r
                end.
Proof.
  intros source fetched Hsrc Hurl Hsame Hfault Hrows Hne.
  assert (Sql.exec (fetch_query cfg) (db w) = Some (fetched, db w)) as Hfetch.
  { unfold fetch_query, Sql.exec. fold source. by rewrite Hrows. }
  destruct (complete_run_tables ext cfg w fetched Hsrc Hurl (Hfault _) Hfetch
              Hne (Hfault _))
    as (claimed & w3 & Hclaim & Hdb3 & _ & ->).
  assert (claimed = <[source := Sql.mark_processing fetched.*2 <$> rows]> (db w))
    as Hclaimed.
  { unfold claim_query, Sql.exec in Hclaim. fold source in Hclaim.
    rewrite Hrows in Hclaim. simpl in Hclaim. congruence. }
  destruct (dispatch_steps ext cfg fetched w) as (wd & Hdispatch & _).
  set (d := record_all (futures_from ext cfg (length (pool_logs w)) fetched)
              Dict.empty) in *.
  assert (table_ref cfg (BIGQUERY_TABLE_TARGET cfg) = source) as Htarget
    by (unfold source; by rewrite Hsame).
  assert (NoDup (Dict.keys d)) as Hkeys
    by apply NoDup_keys_record_all, NoDup_nil_2.
  exists d. eexists. split; [by rewrite Hdispatch|].
  split.
  { rewrite <- Htarget.
    apply (write_back_on_working_store ext cfg d w3
             (Sql.mark_processing fetched.*2 <$> rows));
      [by rewrite Hsame|done|].
    rewrite Htarget, Hdb3, Hclaimed. apply lookup_insert_eq. }
  rewrite foldl_fmap_rows, !length_fmap. split; [done|].
  intros i r Hr.
  eexists. split.
  { rewrite list_lookup_fmap, list_lookup_fmap, Hr. reflexivity. }
  destruct (row_after_writes d (Sql.mark_processing fetched.*2 r) Hkeys)
    as (Hid & Hu & Hentry).
  rewrite mark_processing_id in Hid, Hentry.
  split; [done|]. split.
  { rewrite Hu. unfold Sql.mark_processing. by case_bool_decide. }
  destruct (Dict.get d (row_id r)) as [o|] eqn:Hget; [done|].
  rewrite Hentry. unfold Sql.mark_processing.
  rewrite bool_decide_eq_false_2; [done|].
  apply DictFacts.get_None in Hget. intros Hin. apply Hget.
  apply elem_of_keys_record_all. right. by rewrite futures_from_ids.
Qed.

Lemma results_reach_the_rows_witness :
  let rows := [Sample.pending "row-1" "u1";
               {| row_id := "row-9"; row_url := "u9";
                  row_status := "COMPLETED"; row_context := "old" |}] in
  ∃ d rows',
    (dispatch (Sample.answering "A chapter") Sample.cfg [("u1", "row-1")]
       (init_world (Sample.tables rows))).1 = Ret d
    ∧ db (process_batch_from_bq (Sample.answering "A chapter") Sample.cfg
            (init_world (Sample.tables rows))).2 !! "proj.videos.urls"
      = Some rows'
    ∧ length rows' = 2.
Proof.
  intros rows.
  destruct (results_reach_the_rows (Sample.answering "A chapter") Sample.cfg
              (init_world (Sample.tables rows)) rows)
    as (d & rows' & Hd & Hrows' & Hlen & _).
  - reflexivity.
  - discriminate.
  - reflexivity.
  - reflexivity.
  - vm_compute; reflexivity.
  - discriminate.
  - exists d, rows'. by split_and!.
Defined.

(** The rows of that run, evaluated. *)
Example rows_after_sample_run :
  let rows := [Sample.pending "row-1" "u1";
               {| row_id := "row-9"; row_url := "u9";
                  row_status := "COMPLETED"; row_context := "old" |}] in
  db (process_batch_from_bq (Sample.answering "A chapter") Sample.cfg
        (init_world (Sample.tables rows))).2 !! "proj.videos.urls"
  = Some [{| row_id := "row-1"; row_url := "u1"; row_status := "COMPLETED";
             row_context := "A chapter" |};
          {| row_id := "row-9"; row_url := "u9"; row_status := "COMPLETED";
             row_context := "old" |}].
Proof. vm_compute. done. Qed.

(** ** One run after another *)

Lemma select_pending_nil (rows : list row) (limit : nat) :
  (∀ r, r ∈ rows → row_status r ≠ "PENDING") →
  Sql.select_pending rows limit = [].
Proof.
  intros Hnone. unfold Sql.select_pending.
  destruct (filter Sql.is_pending rows) as [|r pending] eqn:Hfilter.
  - by destruct limit.
  - assert (r ∈ filter Sql.is_pending rows) as Hin
      by (rewrite Hfilter; by left).
    apply list_elem_of_filter in Hin as [Hpending Hin].
    unfold Sql.is_pending in Hpending. apply bool_decide_unpack in Hpending.
    by destruct (Hnone r Hin).
Qed.

Lemma nothing_pending_result (ext : external) (cfg : config) (w : world)
    (rows : list row) :
  Py.truthy (BIGQUERY_TABLE_SOURCE cfg) = true →
  URL_PROCESSOR_SERVICE_URL cfg ≠ "" →
  store_fault ext (issued w) = None →
  db w !! table_ref cfg (BIGQUERY_TABLE_SOURCE cfg) = Some rows →
  Sql.select_pending rows BATCH_SIZE = [] →
  (process_batch_from_bq ext cfg w).1
  = Ret ("No pending URLs found. Job finished.", 200)
  ∧ db (process_batch_from_bq ext cfg w).2 = db w.
Proof.
  intros Hsrc Hurl Hfault Htable Hempty.
  assert (Sql.exec (fetch_query cfg) (db w) = Some ([], db w)) as Hexec.
  { unfold fetch_query, Sql.exec. rewrite Htable. simpl. by rewrite Hempty. }
  destruct (process_batch_from_bq_run ext cfg w)
    as (r & w' & evs & -> & Htr & Hcase).
  destruct Hcase
    as [msg w' evs [Hbad|Hbad] _ _ _
       |e w' evs _ [Hbad|(_ & Hbad & _)] _ _ _ _
       |w' evs _ _ _ Hq Hs Hdb
       |fetched e w' evs _ Hne _ Hfetch _ _ _ _ _
       |fetched claimed d n w' pre post _ Hne _ Hfetch _ _ _ _ _ _ _ _ _ _ _];
    try congruence.
  done.
Qed.

(** X16: a backlog of at most [BATCH_SIZE] pending rows is used up by one
    run whose SELECT and claim are carried out: whatever the calls returned
    and whichever result writes failed, no row of the source table is
    PENDING afterwards, and a second run on the tables the first one left
    returns ("No pending URLs found. Job finished.", 200). Rows that failed
    or whose result write failed are not taken up again. *)
Theorem small_backlog_is_used_up_by_one_run (ext ext2 : external)
    (cfg : config) (w w2 : world) (rows : list row) :
  let source := table_ref cfg (BIGQUERY_TABLE_SOURCE cfg) in
  Py.truthy (BIGQUERY_TABLE_SOURCE cfg) = true →
  URL_PROCESSOR_SERVICE_URL cfg ≠ "" →
  db w !! source = Some rows →
  (length (filter Sql.is_pending rows) ≤ BATCH_SIZE)%nat →
  store_fault ext (issued w) = None →
  store_fault ext (S (issued w)) = None →
  db w2 = db (process_batch_from_bq ext cfg w).2 →
  store_fault ext2 (issued w2) = None →
  (process_batch_from_bq ext2 cfg w2).1
  = Ret ("No pending URLs found. Job finished.", 200).
Proof.
  intros source Hsrc Hurl Hrows Hsmall Hf0 Hf1 Hdb2 Hf2.
  set (fetched := Sql.select_pending rows BATCH_SIZE).
  assert (∀ r, r ∈ rows → row_status r = "PENDING" →
               row_id r ∈ fetched.*2) as Hall.
  { intros r Hin Hpending. unfold fetched, Sql.select_pending.
    rewrite take_ge by done. rewrite <- list_fmap_compose.
    apply list_elem_of_fmap. exists r. split; [done|].
    apply list_elem_of_filter. split; [|done].
    unfold Sql.is_pending. by apply bool_decide_pack. }
  enough (∃ rows', db w2 !! source = Some rows'
                   ∧ ∀ r, r ∈ rows' → row_status r ≠ "PENDING")
    as (rows' & Hrows' & Hnone).
  { apply (nothing_pending_result ext2 cfg w2 rows'); try done.
    by apply select_pending_nil. }
  rewrite Hdb2.
  destruct (decide (fetched = [])) as [Hempty|Hne].
  { destruct (nothing_pending_result ext cfg w rows) as [_ ->]; try done.
    exists rows. split; [done|].
    intros r Hin Hpending. specialize (Hall r Hin Hpending).
    rewrite Hempty in Hall. by apply elem_of_nil in Hall. }
  assert (Sql.exec (fetch_query cfg) (db w) = Some (fetched, db w)) as Hfetch.
  { unfold fetch_query, Sql.exec. fold source. by rewrite Hrows. }
  destruct (complete_run_tables ext cfg w fetched Hsrc Hurl Hf0 Hfetch Hne Hf1)
    as (claimed & w3 & Hclaim & Hdb3 & _ & ->).
  assert (claimed = <[source := Sql.mark_processing fetched.*2 <$> rows]> (db w))
    as Hclaimed.
  { unfold claim_query, Sql.exec in Hclaim. fold source in Hclaim.
    rewrite Hrows in Hclaim. simpl in Hclaim. congruence. }
  set (P := λ tables : gmap string (list row),
         ∃ rows', tables !! source = Some rows'
                  ∧ ∀ r, r ∈ rows' → row_status r = "PENDING" →
                         r ∈ rows ∧ row_id r ∉ fetched.*2).
  assert (P (db (write_back ext cfg
                   (record_all
                      (futures_from ext cfg (length (pool_logs w)) fetched)
                      Dict.empty) w3).2)) as (rows' & Hrows' & Hleft).
  { apply write_back_keeps.
    - intros tables rowsT item Hitem (rows1 & Hrows1 & Hleft) HrowsT.
      destruct (decide (table_ref cfg (BIGQUERY_TABLE_TARGET cfg) = source))
        as [Heq|Hneq].
      + rewrite Heq in *. assert (rowsT = rows1) as -> by congruence.
        eexists. split; [apply lookup_insert_eq|].
        intros r (r1 & -> & Hin)%list_elem_of_fmap.
        unfold Sql.set_result. case_bool_decide; simpl.
        * intros Hpending.
          by destruct (outcome_status_is_not_pending _ _ Hitem).
        * by apply Hleft.
      + exists rows1. split; [|done]. by rewrite lookup_insert_ne.
    - rewrite Hdb3, Hclaimed. eexists. split; [apply lookup_insert_eq|].
      intros r (r0 & -> & Hin)%list_elem_of_fmap.
      unfold Sql.mark_processing. case_bool_decide; simpl; [done|].
      by intros _. }
  exists rows'. split; [done|].
  intros r Hin Hpending. destruct (Hleft r Hin Hpending) as [Hr Hid].
  by apply Hid, Hall.
Qed.

Lemma small_backlog_is_used_up_by_one_run_witness :
  let rows := [Sample.pending "row-1" "u1"; Sample.pending "row-2" "u2"] in
  let first := process_batch_from_bq (Sample.store_down_from 3 "ERROR: no")
                 Sample.cfg (init_world (Sample.tables rows)) in
  (process_batch_from_bq (Sample.answering "text") Sample.cfg
     (init_world (db first.2))).1
  = Ret ("No pending URLs found. Job finished.", 200).
Proof.
  intros rows first.
  refine (small_backlog_is_used_up_by_one_run
            (Sample.store_down_from 3 "ERROR: no") (Sample.answering "text")
            Sample.cfg (init_world (Sample.tables rows))
            (init_world (db first.2)) rows _ _ _ _ _ _ _ _);
    [reflexivity|discriminate|vm_compute; reflexivity|vm_compute; lia
    |reflexivity|reflexivity|reflexivity|reflexivity].
Defined.

(** * The error marker, from the call to the row *)

(** ** Every step keeps two runs alike

    Two runs whose store faults alike and whose calls return the same
    strings stay [same_but_pool_lines], step by step. *)









Section same_answers.

Variables ext1 ext2 : external.
Variable cfg : config.
Hypothesis same_store : ∀ n, store_fault ext1 n = store_fault ext2 n.
Hypothesis same_futures :
  ∀ n url, future_of ext1 cfg n url = future_of ext2 cfg n url.







End same_answers.



(** ** What is stored for an item *)






(** Two such runs, evaluated: a response with status 200 whose body starts
    with the marker, and a request that times out, both leave the row as
    FAILED_PROCESSING with the returned string as context. *)
Example error_text_is_stored_as_failure :
  let rows := [Sample.pending "row-1" "https://a.example/1"] in
  db (process_batch_from_bq (Sample.answering "ERROR: quota exceeded")
        Sample.cfg (init_world (Sample.tables rows))).2 !! "proj.videos.urls"
  = Some [{| row_id := "row-1"; row_url := "https://a.example/1";
             row_status := "FAILED_PROCESSING";
             row_context := "ERROR: quota exceeded" |}]
  ∧ db (process_batch_from_bq (always RequestTimeout InTime)
          Sample.cfg (init_world (Sample.tables rows))).2 !! "proj.videos.urls"
    = Some [{| row_id := "row-1"; row_url := "https://a.example/1";
               row_status := "FAILED_PROCESSING";
               row_context := "ERROR: Timeout processing 'https://a.example/1' at https://processor.example" |}].
Proof. vm_compute. done. Qed.

(** * Properties of the processing endpoint *)

Section endpoint_facts.

Variable py_str : Endpoint.json → string.
Variable str_format : string → string → result string.
Variable generate : string → result (option string).

Notation hello_http := (Endpoint.hello_http py_str str_format generate).
Notation process_videos_batch :=
  (Endpoint.process_videos_batch py_str str_format generate).

(** X12: the value to process is the "name" entry of the JSON body when the
    body is an object that has one, whatever the query string says;
    otherwise (body absent, empty, or without the name) it is the "name"
    query argument, and "World" when there is none either. *)
Theorem name_from_body_then_query_then_default (req : Endpoint.request) :
  (∀ fields value,
      Endpoint.request_json req = Endpoint.JObject fields →
      Dict.get fields "name" = Some value →
      hello_http req = process_videos_batch value Endpoint.PROMPT_TEMPLATE)
  ∧ (Endpoint.truthy (Endpoint.request_json req) = false
     ∨ Endpoint.has_name (Endpoint.request_json req) = Ret false →
     hello_http req
     = process_videos_batch
         (Endpoint.JString
            (default "World" (Endpoint.request_args req !! "name")))
         Endpoint.PROMPT_TEMPLATE).
Proof.
  split.
  - intros fields value Hbody Hget. unfold Endpoint.hello_http.
    rewrite Hbody. simpl.
    assert (fields ≠ []) as Hne by (intros ->; discriminate).
    assert ("name" ∈ Dict.keys fields) as Hkey.
    { destruct (decide ("name" ∈ Dict.keys fields)) as [|Hnot]; [done|].
      apply DictFacts.get_None in Hnot. congruence. }
    rewrite (bool_decide_eq_false_2 _ Hne), (bool_decide_eq_true_2 _ Hkey).
    simpl. by rewrite Hget.
  - intros Hnone. unfold Endpoint.hello_http.
    destruct (Endpoint.truthy (Endpoint.request_json req)) eqn:Htruthy.
    + destruct Hnone as [|Hnone]; [done|]. rewrite Hnone.
      by destruct (Endpoint.request_args req !! "name").
    + by destruct (Endpoint.request_args req !! "name").
Qed.

(** X13: a body that parses to something other than an object is not
    skipped when it is truthy and cannot take the place of one: a [true], a
    number other than zero, a string that contains "name" or a list that
    contains "name" makes [hello_http] raise a [TypeError] before anything is
    processed. *)
Theorem malformed_body_raises (req : Endpoint.request) (w : world) :
  match Endpoint.request_json req with
  | Endpoint.JBool b => b = true
  | Endpoint.JNumber is_zero => is_zero = false
  | Endpoint.JString s => Py.contains s "name" = true
  | Endpoint.JArray items => existsb Endpoint.is_name items = true
  | Endpoint.JNull | Endpoint.JObject _ => False
  end →
  hello_http req w = (Raise (Exception "TypeError"), w).
Proof.
  unfold Endpoint.hello_http, bind, Endpoint.of_result.
  destruct (Endpoint.request_json req) as [|b|z|s|items|fields]; simpl;
    try done.
  - by intros ->.
  - by intros ->.
  - intros Hs. rewrite Hs.
    assert (s ≠ "") as Hne by (intros ->; discriminate).
    by rewrite (bool_decide_eq_false_2 _ Hne).
  - intros Hitems. rewrite Hitems.
    assert (items ≠ []) as Hne by (intros ->; discriminate).
    by rewrite (bool_decide_eq_false_2 _ Hne).
Qed.

(** X14: once the prompt is formatted, [process_videos_batch] does not
    raise. When the model call raises it prints the error and returns the
    text "Error processing video: <error>"; this text does not start with the
    marker "ERROR:", so when the job receives it with a success status it
    passes it on unchanged and records the row as COMPLETED. When the model
    call returns it prints the text twice and returns it. *)
Theorem generation_failure_is_returned_as_text (video_url : Endpoint.json)
    (template prompt : string) (w : world) :
  str_format template (Endpoint.text_of py_str video_url) = Ret prompt →
  (∀ e,
      generate prompt = Raise e →
      let text := "Error processing video: " +:+ exn_str e in
      process_videos_batch video_url template w
      = (Ret (Some text),
         {| db := db w; issued := issued w;
            trace := trace w
                       ++ [Print ("An error occurred during content generation: "
                                    +:+ exn_str e)];
            pool_logs := pool_logs w |})
      ∧ Py.startswith text "ERROR:" = false
      ∧ ∀ cfg url response_url row_id d0 w0,
          (call_url_processor_service cfg url
             (Response 200 "OK" response_url text)).1 = text
          ∧ collect_one (row_id, {| fut_value := text; fut_wait := InTime |})
              d0 w0
            = (Ret (Dict.set d0 row_id
                      {| context := text; status := "COMPLETED" |}), w0))
  ∧ (∀ text,
        generate prompt = Ret text →
        process_videos_batch video_url template w
        = (Ret text,
           {| db := db w; issued := issued w;
              trace := trace w ++ [Print (Py.str text); Print (Py.str text)];
              pool_logs := pool_logs w |})).
Proof.
  intros Hformat. split.
  - intros e Hgen text.
    assert (Py.startswith text "ERROR:" = false) as Hmark by reflexivity.
    split_and!; [|done|].
    + unfold Endpoint.process_videos_batch, bind, try_except, Endpoint.of_result.
      by rewrite Hformat, Hgen.
    + intros cfg url response_url row_id d0 w0. split; [done|].
      unfold collect_one, future_result. cbn [fut_wait fut_value].
      unfold bind, try_except, ret. cbv beta iota. by rewrite Hmark.
  - intros text Hgen.
    unfold Endpoint.process_videos_batch, bind, try_except, Endpoint.of_result.
    rewrite Hformat, Hgen. step. by rewrite <- app_assoc.
Qed.

(** X15: the body the job posts for a url, [{"name": url}], makes the
    endpoint process exactly that url, whatever query arguments come with the
    request. *)
Theorem posted_url_is_the_processed_url (url : string)
    (args : gmap string string) :
  hello_http {| Endpoint.request_json := Endpoint.payload url;
                Endpoint.request_args := args |}
  = process_videos_batch (Endpoint.JString url) Endpoint.PROMPT_TEMPLATE
  ∧ Endpoint.text_of py_str (Endpoint.JString url) = url.
Proof.
  split; [|done].
  unfold Endpoint.hello_http, Endpoint.payload. simpl.
  unfold bind at 1. unfold Endpoint.of_result at 1. done.
Qed.

End endpoint_facts.

Lemma name_from_body_then_query_then_default_witness :
  Endpoint.hello_http (λ _, "") (λ t u, Ret (t +:+ u)) (λ _, Ret (Some "ok"))
    {| Endpoint.request_json := Endpoint.JObject [("other", Endpoint.JNull)];
       Endpoint.request_args := {[ "name" := "https://a.example/1" ]} |}
  = Endpoint.process_videos_batch (λ _, "") (λ t u, Ret (t +:+ u))
      (λ _, Ret (Some "ok")) (Endpoint.JString "https://a.example/1")
      Endpoint.PROMPT_TEMPLATE.
Proof.
  refine (proj2 (name_from_body_then_query_then_default
                   (λ _, "") (λ t u, Ret (t +:+ u)) (λ _, Ret (Some "ok"))
                   {| Endpoint.request_json :=
                        Endpoint.JObject [("other", Endpoint.JNull)];
                      Endpoint.request_args :=
                        {[ "name" := "https://a.example/1" ]} |}) _).
  right. reflexivity.
Defined.

Lemma malformed_body_raises_witness :
  Endpoint.hello_http (λ _, "") (λ t u, Ret (t +:+ u)) (λ _, Ret (Some "ok"))
    {| Endpoint.request_json := Endpoint.JString "my name";
       Endpoint.request_args := ∅ |} (init_world ∅)
  = (Raise (Exception "TypeError"), init_world ∅).
Proof.
  refine (malformed_body_raises (λ _, "") (λ t u, Ret (t +:+ u))
            (λ _, Ret (Some "ok"))
            {| Endpoint.request_json := Endpoint.JString "my name";
               Endpoint.request_args := ∅ |} (init_world ∅) _).
  reflexivity.
Defined.

Lemma generation_failure_is_returned_as_text_witness :
  (Endpoint.process_videos_batch (λ _, "") (λ t u, Ret u)
     (λ _, Raise (Exception "quota exceeded"))
     (Endpoint.JString "https://a.example/1") Endpoint.PROMPT_TEMPLATE
     (init_world ∅)).1
  = Ret (Some "Error processing video: quota exceeded").
Proof.
  destruct (proj1 (generation_failure_is_returned_as_text
                     (λ _, "") (λ t u, Ret u)
                     (λ _, Raise (Exception "quota exceeded"))
                     (Endpoint.JString "https://a.example/1")
                     Endpoint.PROMPT_TEMPLATE "https://a.example/1"
                     (init_world ∅) eq_refl)
              (Exception "quota exceeded") eq_refl) as (-> & _).
  reflexivity.
Defined.
